(** * MetaMCP public gateway: streamable-HTTP session multiplexer

    A shallow embedding of
    [apps/backend/src/routers/public-metamcp/streamable-http.ts]
    (endpoint lookup, API-key gate, per-endpoint server cache with session
    counting, per-session transports, cleanup on DELETE) and of
    [retryDbQuery] (the database retry helper in [lib/auth0.ts]).

    The three process-wide records of the router are finite maps keyed by
    strings.  Handlers are written in a small program monad whose nodes are
    the asynchronous calls the router makes to its collaborators; one
    interpreter runs a handler to completion, another one runs a pool of
    handlers that interleave at their [await]s, as the Node event loop does. *)

From stdpp Require Import gmap strings list.
From Equations Require Import Equations.

Local Open Scope string_scope.

(** ** Values exchanged with the collaborators *)

(** Object identities of the values handed out by [createServer] and by
    [new StreamableHTTPServerTransport]. *)
Definition ServerId := nat.
Definition TransportId := nat.

(** A thrown value (what a [catch (error)] clause binds). *)
Definition Exn := string.

(** The columns of [DatabaseEndpoint] the router reads. *)
Record Endpoint := {
  namespace_uuid : string;
  enable_api_key_auth : bool;
  use_query_param_auth : bool
}.

(** Result of [apiKeysRepository.validateApiKey]. *)
Record Validation := {
  valid : bool;
  user_id : option string;
  key_uuid : option string
}.

(** The parts of an [express.Request] the router reads. *)
Record Request := {
  endpoint_name : string;           (* req.params.endpoint_name *)
  authorization : option string;    (* req.headers.authorization *)
  x_api_key : option string;        (* req.headers["x-api-key"] *)
  mcp_session_id : option string;   (* req.headers["mcp-session-id"] *)
  query_api_key : option string;    (* req.query.api_key *)
  query_apikey : option string;     (* req.query.apikey *)
  req_body : string                 (* req.body *)
}.

(** [AuthenticatedRequest]: the request with the properties added by the
    two middlewares. *)
Record AuthenticatedRequest := {
  request : Request;
  namespaceUuid : string;
  endpointName : string;
  endpoint : Endpoint;
  apiKeyUserId : option string;
  apiKeyUuid : option string
}.

(** A settled promise, or the result of a call that may throw. *)
Inductive Reply (A : Type) : Type :=
| Resolved (a : A)
| Rejected (e : Exn).
Arguments Resolved {A} a.
Arguments Rejected {A} e.

(** The calls that leave the router.  The index is the type of the value a
    call resolves to. *)
Inductive Call : Type -> Type :=
| FindByName (name : string) : Call (option Endpoint)
| ValidateApiKey (apiKey : string) : Call Validation
| RandomUUID : Call string
| CreateServer (namespaceUuid sessionId : string) : Call ServerId
| NewTransport (sessionId : string) : Call TransportId
| ServerConnect (server : ServerId) (transport : TransportId) : Call unit
| HandleRequest (transport : TransportId) (req : Request) : Call unit
| TransportClose (transport : TransportId) : Call unit
| CleanupSessionConnections (sessionId : string) : Call unit
| ServerCleanup (server : ServerId) : Call unit.

(** [randomUUID()] and the transport constructor return at once; every other
    call returns a promise that the caller awaits. *)
Definition awaited {X} (c : Call X) : bool :=
  match c with
  | RandomUUID | NewTransport _ => false
  | _ => true
  end.

Inductive AnyCall : Type :=
| Any {X : Type} (c : Call X).

(** ** The router's process-wide state *)

Record Store := {
  transports : gmap string TransportId;
  metamcpServers : gmap string ServerId;
  endpointSessionCounts : gmap string Z
}.

Definition empty_store : Store :=
  {| transports := ∅; metamcpServers := ∅; endpointSessionCounts := ∅ |}.

Definition set_transports (f : gmap string TransportId -> gmap string TransportId)
    (st : Store) : Store :=
  {| transports := f (transports st);
     metamcpServers := metamcpServers st;
     endpointSessionCounts := endpointSessionCounts st |}.

Definition set_metamcpServers (f : gmap string ServerId -> gmap string ServerId)
    (st : Store) : Store :=
  {| transports := transports st;
     metamcpServers := f (metamcpServers st);
     endpointSessionCounts := endpointSessionCounts st |}.

Definition set_endpointSessionCounts (f : gmap string Z -> gmap string Z)
    (st : Store) : Store :=
  {| transports := transports st;
     metamcpServers := metamcpServers st;
     endpointSessionCounts := f (endpointSessionCounts st) |}.

(** One entry of the call log: the call and the store as it was when the
    call was issued, that is, what any other request could read while the
    call was in flight. *)
Record Event := {
  ev_call : AnyCall;
  ev_store : Store
}.

Record World := {
  store : Store;
  trace : list Event
}.

Definition record {X} (c : Call X) (w : World) : World :=
  {| store := store w;
     trace := trace w ++ [{| ev_call := Any c; ev_store := store w |}] |}.

(** The collaborators: how a call settles, given everything that was issued
    so far (the call itself included). *)
Definition Env := forall X, Call X -> list Event -> Reply X.

(** ** Programs *)

Inductive Prog (A : Type) : Type :=
| Ret (a : A)
| Throw (e : Exn)
| Get (k : Store -> Prog A)
| Modify (f : Store -> Store) (k : Prog A)
| Yield (k : Prog A)
| Vis {X : Type} (c : Call X) (k : Reply X -> Prog A).
Arguments Ret {A} a.
Arguments Throw {A} e.
Arguments Get {A} k.
Arguments Modify {A} f k.
Arguments Yield {A} k.
Arguments Vis {A X} c k.

Fixpoint bind {A B} (p : Prog A) (f : A -> Prog B) : Prog B :=
  match p with
  | Ret a => f a
  | Throw e => Throw e
  | Get k => Get (fun st => bind (k st) f)
  | Modify g k => Modify g (bind k f)
  | Yield k => Yield (bind k f)
  | Vis c k => Vis c (fun r => bind (k r) f)
  end.

#[global] Instance Prog_ret : MRet Prog := fun A a => Ret a.
#[global] Instance Prog_bind : MBind Prog := fun A B f p => bind p f.

(** [settle p] never throws: it hands the outcome of [p] over as a value. *)
Fixpoint settle {A} (p : Prog A) : Prog (Reply A) :=
  match p with
  | Ret a => Ret (Resolved a)
  | Throw e => Ret (Rejected e)
  | Get k => Get (fun st => settle (k st))
  | Modify g k => Modify g (settle k)
  | Yield k => Yield (settle k)
  | Vis c k => Vis c (fun r => settle (k r))
  end.

Definition of_reply {A} (r : Reply A) : Prog A :=
  match r with
  | Resolved a => Ret a
  | Rejected e => Throw e
  end.

(** [try { p } catch (error) { h error }] *)
Definition try_catch {A} (p : Prog A) (h : Exn -> Prog A) : Prog A :=
  r ← settle p;
  match r with
  | Resolved a => Ret a
  | Rejected e => h e
  end.

(** A call to a collaborator: [await c(...)], or plain [c(...)] for the two
    synchronous ones. *)
Definition call {X} (c : Call X) : Prog X := Vis c of_reply.

(** [await f(...)] for an [async] function [f] of the router itself: the
    caller resumes in a later microtask, whatever [f] did. *)
Definition await_fn {A} (p : Prog A) : Prog A :=
  r ← settle p; Yield (of_reply r).

Definition get : Prog Store := Get Ret.
Definition modify (f : Store -> Store) : Prog unit := Modify f (Ret tt).

(** ** Running one handler to completion *)

Fixpoint run {A} (env : Env) (p : Prog A) (w : World) : Reply A * World :=
  match p with
  | Ret a => (Resolved a, w)
  | Throw e => (Rejected e, w)
  | Get k => run env (k (store w)) w
  | Modify f k => run env k {| store := f (store w); trace := trace w |}
  | Yield k => run env k w
  | Vis c k => let w' := record c w in run env (k (env _ c (trace w'))) w'
  end.

(** ** Running several handlers that interleave at their awaits *)

Inductive Task (A : Type) : Type :=
| Ready (p : Prog A)
| Parked {X : Type} (c : Call X) (k : Reply X -> Prog A)
| Finished (r : Reply A).
Arguments Ready {A} p.
Arguments Parked {A X} c k.
Arguments Finished {A} r.

(** Synchronous code runs until the next [await]. *)
Fixpoint advance {A} (env : Env) (p : Prog A) (w : World) : Task A * World :=
  match p with
  | Ret a => (Finished (Resolved a), w)
  | Throw e => (Finished (Rejected e), w)
  | Get k => advance env (k (store w)) w
  | Modify f k => advance env k {| store := f (store w); trace := trace w |}
  | Yield k => (Ready k, w)
  | Vis c k =>
      let w' := record c w in
      if awaited c then (Parked c k, w')
      else advance env (k (env _ c (trace w'))) w'
  end.

Definition resume {A} (env : Env) (t : Task A) (w : World) : Task A * World :=
  match t with
  | Ready p => advance env p w
  | Parked c k => advance env (k (env _ c (trace w))) w
  | Finished r => (Finished r, w)
  end.

(** The event loop gives the turn to task [i]. *)
Definition turn {A} (env : Env) (i : nat) (pw : list (Task A) * World)
    : list (Task A) * World :=
  match pw.1 !! i with
  | Some t => let '(t', w') := resume env t pw.2 in (<[i := t']> pw.1, w')
  | None => pw
  end.

Definition run_schedule {A} (env : Env) (sched : list nat)
    (pw : list (Task A) * World) : list (Task A) * World :=
  foldl (fun acc i => turn env i acc) pw sched.

(** ** JavaScript values *)

(** [!!s] for a header or query value: [undefined] and the empty string are
    falsy. *)
Definition truthy (o : option string) : bool :=
  match o with
  | Some s => negb (String.eqb s "")
  | None => false
  end.

(** [a || b] on such values. *)
Definition js_or (a b : option string) : option string :=
  if truthy a then a else b.

(** [obj[undefined]] reads the property named ["undefined"]. *)
Definition property_key (o : option string) : string := default "undefined" o.

(** The three records are object literals, so a property that is not their
    own is looked up in [Object.prototype]. *)
Definition object_prototype_names : list string :=
  [ "constructor"; "__proto__"; "hasOwnProperty"; "isPrototypeOf";
    "propertyIsEnumerable"; "toLocaleString"; "toString"; "valueOf";
    "__defineGetter__"; "__defineSetter__"; "__lookupGetter__";
    "__lookupSetter__" ].

Definition inherited (k : string) : bool :=
  bool_decide (k ∈ object_prototype_names).

Inductive Slot (V : Type) : Type :=
| Own (v : V)      (* an entry of the record *)
| Inherited        (* a member of Object.prototype: truthy, not a V *)
| Missing.         (* undefined *)
Arguments Own {V} v.
Arguments Inherited {V}.
Arguments Missing {V}.

(** [transports[sessionId]], the session id being whatever the client put
    in the [mcp-session-id] header.  (The two records keyed by endpoint name
    are read with names the endpoint directory knows; those are taken to be
    none of [object_prototype_names].) *)
Definition js_get {V} (m : gmap string V) (k : string) : Slot V :=
  match m !! k with
  | Some v => Own v
  | None => if inherited k then Inherited else Missing
  end.

(** ** Responses *)

Inductive Body : Type :=
| JsonMessage (error message : string)   (* res.json({ error, message }) *)
| JsonOf (error : Exn)                   (* res.json(error) *)
| Text (s : string)                      (* res.end(s) *)
| NoBody.                                (* res.end() *)

Record Response := {
  status : nat;
  body : Body
}.

(** What a middleware did: called [next()] or answered. *)
Inductive Middleware : Type :=
| Next (req : AuthenticatedRequest)
| Answered (res : Response).

(** What a route handler did: answered itself, or let the session's
    transport write the response. *)
Inductive Outcome : Type :=
| Responded (res : Response)
| Forwarded (transport : TransportId).

Definition respond (code : nat) (b : Body) : Prog Outcome :=
  Ret (Responded {| status := code; body := b |}).

(** ** The router *)

(** [createMetaMcpServer], for an endpoint name that is none of
    [object_prototype_names].  (At such a name [metamcpServers[endpointName]]
    would be a member of [Object.prototype]: truthy and no server instance.
    The statements that depend on what this record holds at the endpoint
    name say that the name is not [inherited].) *)
Definition createMetaMcpServer (namespaceUuid sessionId endpointName : string)
    : Prog ServerId :=
  st ← get;
  match metamcpServers st !! endpointName with
  | Some serverInstance => Ret serverInstance
  | None =>
      serverInstance ← call (CreateServer namespaceUuid sessionId);
      modify (set_metamcpServers <[endpointName := serverInstance]>);;
      Ret serverInstance
  end.

(** [cleanupEndpointIfUnused] *)
Definition cleanupEndpointIfUnused (endpointName : string) : Prog unit :=
  st ← get;
  let sessionCount := default 0%Z (endpointSessionCounts st !! endpointName) in
  if bool_decide (sessionCount ≤ 0)%Z then
    match metamcpServers st !! endpointName with
    | Some serverInstance =>
        call (ServerCleanup serverInstance);;
        modify (set_metamcpServers (delete endpointName));;
        modify (set_endpointSessionCounts (delete endpointName))
    | None => Ret tt
    end
  else Ret tt.

(** [cleanupSession] *)
Definition cleanupSession (sessionId endpointName : string) : Prog unit :=
  st ← get;
  match js_get (transports st) sessionId with
  | Own transport =>
      modify (set_transports (delete sessionId));;
      call (TransportClose transport)
  | Inherited => Throw "TypeError: transport.close is not a function"
  | Missing => Ret tt
  end;;
  st ← get;
  (if bool_decide (0 < default 0 (endpointSessionCounts st !! endpointName))%Z
   then modify (set_endpointSessionCounts
                  (alter (fun n => n - 1)%Z endpointName))
   else Ret tt);;
  call (CleanupSessionConnections sessionId);;
  await_fn (cleanupEndpointIfUnused endpointName).

(** [lookupEndpoint] *)
Definition lookupEndpoint (req : Request) : Prog Middleware :=
  let endpointName := endpoint_name req in
  try_catch
    (found ← call (FindByName endpointName);
     match found with
     | None =>
         Ret (Answered
           {| status := 404;
              body := JsonMessage "Endpoint not found"
                        ("No endpoint found with name: " ++ endpointName) |})
     | Some ep =>
         Ret (Next {| request := req;
                      namespaceUuid := namespace_uuid ep;
                      endpointName := endpointName;
                      endpoint := ep;
                      apiKeyUserId := None;
                      apiKeyUuid := None |})
     end)
    (fun _ =>
       Ret (Answered
         {| status := 500;
            body := JsonMessage "Internal server error"
                      "Failed to lookup endpoint" |})).

(** The key found in the headers: [Authorization: Bearer <key>], else
    [X-API-Key]. *)
Definition header_api_key (req : Request) : option string :=
  match authorization req with
  | Some authHeader =>
      if truthy (Some authHeader) && String.prefix "Bearer " authHeader
      then Some (String.substring 7 (String.length authHeader - 7) authHeader)
      else x_api_key req
  | None => x_api_key req
  end.

Definition accepted_methods (ep : Endpoint) : list string :=
  [ "Authorization header (Bearer token)"; "X-API-Key header" ]
  ++ (if use_query_param_auth ep
      then [ "query parameter (api_key or apikey)" ] else []).

(** [authenticateApiKey] *)
Definition authenticateApiKey (authReq : AuthenticatedRequest)
    : Prog Middleware :=
  let ep := endpoint authReq in
  let req := request authReq in
  if negb (enable_api_key_auth ep) then Ret (Next authReq)
  else
    try_catch
      (let apiKey := header_api_key req in
       let apiKey :=
         if negb (truthy apiKey) && use_query_param_auth ep
         then js_or (query_api_key req) (query_apikey req)
         else apiKey in
       if negb (truthy apiKey) then
         Ret (Answered
           {| status := 401;
              body := JsonMessage "Authentication required"
                        ("API key required in one of: "
                         ++ String.concat ", " (accepted_methods ep)) |})
       else
         validation ← call (ValidateApiKey (default "" apiKey));
         if negb (valid validation) then
           Ret (Answered
             {| status := 401;
                body := JsonMessage "Invalid API key"
                          "The provided API key is invalid or inactive" |})
         else
           Ret (Next {| request := req;
                        namespaceUuid := namespaceUuid authReq;
                        endpointName := endpointName authReq;
                        endpoint := ep;
                        apiKeyUserId := user_id validation;
                        apiKeyUuid := key_uuid validation |}))
      (fun _ =>
         Ret (Answered
           {| status := 500;
              body := JsonMessage "Internal server error"
                        "Failed to validate API key" |})).

(** [streamableHttpRouter.get] *)
Definition handle_get (authReq : AuthenticatedRequest) : Prog Outcome :=
  let req := request authReq in
  let sessionId := property_key (mcp_session_id req) in
  try_catch
    (st ← get;
     match js_get (transports st) sessionId with
     | Missing => respond 404 (Text "Session not found")
     | Own transport =>
         call (HandleRequest transport req);; Ret (Forwarded transport)
     | Inherited =>
         Throw "TypeError: transport.handleRequest is not a function"
     end)
    (fun error => respond 500 (JsonOf error)).

(** The branch of [streamableHttpRouter.post] for a request without a
    session id.  [createMetaMcpServer] returns either a cached entry or a
    fresh object, so the [if (!mcpServerInstance)] test never fires.
    [randomUUID()] gives the 36-character text of a UUID, so the assignment
    [transports[newSessionId] = transport] adds or replaces an entry.
    The endpoint name is none of [object_prototype_names], as for
    [createMetaMcpServer]: the count read at the name is a number or
    [undefined]. *)
Definition begin_session (authReq : AuthenticatedRequest) : Prog Outcome :=
  let req := request authReq in
  let endpointName := endpointName authReq in
  try_catch
    (newSessionId ← call RandomUUID;
     mcpServerInstance ←
       await_fn (createMetaMcpServer (namespaceUuid authReq) newSessionId
                   endpointName);
     modify (fun st =>
       set_endpointSessionCounts
         <[endpointName :=
             (default 0 (endpointSessionCounts st !! endpointName) + 1)%Z]>
         st);;
     transport ← call (NewTransport newSessionId);
     modify (set_transports <[newSessionId := transport]>);;
     call (ServerConnect mcpServerInstance transport);;
     call (HandleRequest transport req);;
     Ret (Forwarded transport))
    (fun error => respond 500 (JsonOf error)).

(** The branch of [streamableHttpRouter.post] for a request that names a
    session. *)
Definition continue_session (sessionId : string)
    (authReq : AuthenticatedRequest) : Prog Outcome :=
  let req := request authReq in
  try_catch
    (st ← get;
     match js_get (transports st) sessionId with
     | Missing =>
         respond 404 (Text ("Transport not found for sessionId " ++ sessionId))
     | Own transport =>
         call (HandleRequest transport req);; Ret (Forwarded transport)
     | Inherited =>
         Throw "TypeError: transport.handleRequest is not a function"
     end)
    (fun error => respond 500 (JsonOf error)).

(** [streamableHttpRouter.post] *)
Definition handle_post (authReq : AuthenticatedRequest) : Prog Outcome :=
  let sessionId := mcp_session_id (request authReq) in
  if negb (truthy sessionId) then begin_session authReq
  else continue_session (default "" sessionId) authReq.

(** [streamableHttpRouter.delete] *)
Definition handle_delete (authReq : AuthenticatedRequest) : Prog Outcome :=
  let sessionId := mcp_session_id (request authReq) in
  if truthy sessionId then
    try_catch
      (await_fn (cleanupSession (default "" sessionId) (endpointName authReq));;
       respond 200 NoBody)
      (fun error => respond 500 (JsonOf error))
  else respond 400 (Text "Missing sessionId").

(** A route: [lookupEndpoint], [authenticateApiKey], then the handler. *)
Definition route (handler : AuthenticatedRequest -> Prog Outcome)
    (req : Request) : Prog Outcome :=
  looked ← lookupEndpoint req;
  match looked with
  | Answered res => Ret (Responded res)
  | Next authReq =>
      authed ← authenticateApiKey authReq;
      match authed with
      | Answered res => Ret (Responded res)
      | Next authReq' => handler authReq'
      end
  end.

Definition GET := route handle_get.
Definition POST := route handle_post.
Definition DELETE := route handle_delete.

Inductive Method : Type := MGet | MPost | MDelete.

Definition handle (mr : Method * Request) : Prog Outcome :=
  match mr.1 with
  | MGet => GET mr.2
  | MPost => POST mr.2
  | MDelete => DELETE mr.2
  end.

(** ** [retryDbQuery] *)

(** [RetryOptions]; an absent property is [None].  The numbers are taken to
    be integers. *)
Record RetryOptions := {
  retries : option Z;
  delayMs : option Z
}.

Definition no_options : RetryOptions := {| retries := None; delayMs := None |}.

Section RetryDbQuery.
Context {T : Type}.

(** [query i] is how the invocation of the query that follows [i] earlier
    ones settles. *)
Variable query : nat -> Reply T.

(** The [while (true)] loop, with the number of invocations made so far
    next to the loop variable.  The pause between two attempts changes
    neither. *)
Equations? retry_loop (retries attempt : Z) (calls : nat) : Reply T * nat
    by wf (Z.to_nat (retries - attempt)) lt :=
  retry_loop retries attempt calls with query calls => {
    | Resolved v := (Resolved v, S calls);
    | Rejected err with decide (retries ≤ attempt)%Z => {
        | left _ := (Rejected err, S calls);
        | right _ := retry_loop retries (attempt + 1) (S calls) } }.
Proof. lia. Qed.

(** The outcome and the number of times the query was invoked. *)
Definition retryDbQuery (options : RetryOptions) : Reply T * nat :=
  let retries := default 10%Z (retries options) in
  retry_loop retries 0 0.

(** Invoke the query, and up to [n] more times while it fails. *)
Fixpoint attempts (n : nat) (calls : nat) : Reply T * nat :=
  match query calls with
  | Resolved v => (Resolved v, S calls)
  | Rejected err =>
      match n with
      | O => (Rejected err, S calls)
      | S n' => attempts n' (S calls)
      end
  end.

End RetryDbQuery.

(** ** Reading the call log *)

Definition is_CreateServer (a : AnyCall) : bool :=
  match a with
  | Any c => match c with CreateServer _ _ => true | _ => false end
  end.

Definition is_ServerConnect (a : AnyCall) : bool :=
  match a with
  | Any c => match c with ServerConnect _ _ => true | _ => false end
  end.

Definition is_RandomUUID (a : AnyCall) : bool :=
  match a with
  | Any c => match c with RandomUUID => true | _ => false end
  end.

Definition is_NewTransport (a : AnyCall) : bool :=
  match a with
  | Any c => match c with NewTransport _ => true | _ => false end
  end.

Definition count_calls (p : AnyCall -> bool) (tr : list Event) : nat :=
  length (List.filter (fun ev => p (ev_call ev)) tr).

(** The (server, transport) pairs of the [server.connect(transport)] calls. *)
Definition connections (tr : list Event) : list (ServerId * TransportId) :=
  omap (fun ev =>
          match ev_call ev with
          | Any c =>
              match c with
              | ServerConnect srv t => Some (srv, t)
              | _ => None
              end
          end) tr.

(** The servers whose [cleanup()] was called. *)
Definition teardowns (tr : list Event) : list ServerId :=
  omap (fun ev =>
          match ev_call ev with
          | Any c =>
              match c with
              | ServerCleanup srv => Some srv
              | _ => None
              end
          end) tr.

(** What was issued after the first [n] calls. *)
Definition issued_after (n : nat) (w : World) : list Event :=
  drop n (trace w).

(** If [ev] is a [server.connect(transport)] call, then [transport] is the
    entry of [transports] for session [sid] in store [st]. *)
Definition registered_at (sid : string) (st : Store) (ev : Event) : Prop :=
  match ev_call ev with
  | Any c =>
      match c with
      | ServerConnect _ t => transports st !! sid = Some t
      | _ => True
      end
  end.

(** No endpoint has a negative session count. *)
Definition counts_nonneg (st : Store) : Prop :=
  forall e n, endpointSessionCounts st !! e = Some n -> (0 ≤ n)%Z.

(** ** Collaborators for the scenarios *)

Definition uuid_of (n : nat) : string :=
  "00000000-0000-4000-8000-00000000000" ++
  match n with 1 => "1" | 2 => "2" | 3 => "3" | _ => "0" end.

(** The server [createServer] builds for a session: [k] for [uuid_of k]. *)
Definition server_for (sessionId : string) : ServerId :=
  if String.eqb sessionId (uuid_of 1) then 1
  else if String.eqb sessionId (uuid_of 2) then 2
  else if String.eqb sessionId (uuid_of 3) then 3
  else 0.

Definition open_endpoint : Endpoint :=
  {| namespace_uuid := "ns-1";
     enable_api_key_auth := false;
     use_query_param_auth := false |}.

Definition secure_endpoint : Endpoint :=
  {| namespace_uuid := "ns-2";
     enable_api_key_auth := true;
     use_query_param_auth := false |}.

Definition directory (name : string) : option Endpoint :=
  if String.eqb name "secure" then Some secure_endpoint
  else if String.eqb name "shared" then Some open_endpoint
  else if String.eqb name "weather" then Some open_endpoint
  else None.

(** Every collaborator works: the k-th [randomUUID()] gives [uuid_of k],
    [createServer] gives [server_for] its session id, the k-th transport is
    [100 + k], and the only valid key is ["good"]. *)
Definition healthy : Env :=
  fun X c tr =>
    match c in Call X return Reply X with
    | FindByName name => Resolved (directory name)
    | ValidateApiKey k =>
        Resolved {| valid := String.eqb k "good";
                    user_id := Some "user-1";
                    key_uuid := Some "key-1" |}
    | RandomUUID => Resolved (uuid_of (count_calls is_RandomUUID tr))
    | CreateServer _ sid => Resolved (server_for sid)
    | NewTransport _ => Resolved (100 + count_calls is_NewTransport tr)
    | ServerConnect _ _ => Resolved tt
    | HandleRequest _ _ => Resolved tt
    | TransportClose _ => Resolved tt
    | CleanupSessionConnections _ => Resolved tt
    | ServerCleanup _ => Resolved tt
    end.

(** As [healthy], but [server.connect] rejects. *)
Definition connect_fails : Env :=
  fun X c tr =>
    match c in Call X return Reply X with
    | ServerConnect _ _ => Rejected "connect ECONNREFUSED 10.0.0.7:5432"
    | c' => healthy _ c' tr
    end.

(** As [healthy], but [transport.handleRequest] rejects. *)
Definition dispatch_fails : Env :=
  fun X c tr =>
    match c in Call X return Reply X with
    | HandleRequest _ _ =>
        Rejected "{code:-32000,data:{upstream:10.0.0.7:5432}}"
    | c' => healthy _ c' tr
    end.

Definition plain_request (name : string) (sid : option string) : Request :=
  {| endpoint_name := name;
     authorization := None;
     x_api_key := None;
     mcp_session_id := sid;
     query_api_key := None;
     query_apikey := None;
     req_body := "{}" |}.

Definition authenticated (req : Request) (ep : Endpoint)
    : AuthenticatedRequest :=
  {| request := req;
     namespaceUuid := namespace_uuid ep;
     endpointName := endpoint_name req;
     endpoint := ep;
     apiKeyUserId := None;
     apiKeyUuid := None |}.

Definition fresh_world : World := {| store := empty_store; trace := [] |}.

(** Requests handled one after the other, each to completion. *)
Definition serve_one (env : Env) (acc : list (Reply Outcome) * World)
    (p : Prog Outcome) : list (Reply Outcome) * World :=
  let '(r, w') := run env p acc.2 in ((acc.1 ++ [r])%list, w').

Definition serve (env : Env) (ps : list (Prog Outcome)) (w : World)
    : list (Reply Outcome) * World :=
  foldl (serve_one env) ([], w) ps.

Definition query_only_request : Request :=
  {| endpoint_name := "secure";
     authorization := None;
     x_api_key := None;
     mcp_session_id := None;
     query_api_key := Some "X";
     query_apikey := None;
     req_body := "{}" |}.

(** A session id the router never issued. *)
Definition stale_session : string := "3f2b7c1e-0000-4000-8000-00000000dead".

(** A query that is down, and then answers at its third invocation. *)
Definition flaky (i : nat) : Reply string :=
  match i with
  | 0 | 1 => Rejected "connection refused"
  | _ => Resolved "rows"
  end.

(** ** The answer of the gate once a key was found *)

(** [authenticateApiKey] from the call of [validateApiKey] on: the validator
    is called once with [apiKey], and its verdict decides. *)
Definition validated (env : Env) (authReq : AuthenticatedRequest)
    (apiKey : string) (w : World) : Reply Middleware * World :=
  let w' := record (ValidateApiKey apiKey) w in
  (Resolved
     match env _ (ValidateApiKey apiKey) (trace w') with
     | Resolved validation =>
         if valid validation then
           Next {| request := request authReq;
                   namespaceUuid := namespaceUuid authReq;
                   endpointName := endpointName authReq;
                   endpoint := endpoint authReq;
                   apiKeyUserId := user_id validation;
                   apiKeyUuid := key_uuid validation |}
         else
           Answered
             {| status := 401;
                body := JsonMessage "Invalid API key"
                          "The provided API key is invalid or inactive" |}
     | Rejected _ =>
         Answered
           {| status := 500;
              body := JsonMessage "Internal server error"
                        "Failed to validate API key" |}
     end,
   w').

(** Requests for the gate scenarios. *)
Definition keyed_request (auth xkey qkey qkey' : option string) : Request :=
  {| endpoint_name := "secure";
     authorization := auth;
     x_api_key := xkey;
     mcp_session_id := None;
     query_api_key := qkey;
     query_apikey := qkey';
     req_body := "{}" |}.

Definition query_endpoint : Endpoint :=
  {| namespace_uuid := "ns-3";
     enable_api_key_auth := true;
     use_query_param_auth := true |}.

(** As [healthy], but the directory and the key validator are down. *)
Definition database_down : Env :=
  fun X c tr =>
    match c in Call X return Reply X with
    | FindByName _ => Rejected "ECONNREFUSED 127.0.0.1:5432"
    | ValidateApiKey _ => Rejected "ECONNREFUSED 127.0.0.1:5432"
    | c' => healthy _ c' tr
    end.

(** The calls of a log, without the store snapshots. *)
Definition calls_of (evs : list Event) : list AnyCall := ev_call <$> evs.

(** The world after one, and after two, first POSTs for ["shared"] with
    [healthy] collaborators. *)
Definition one_session : World :=
  (serve healthy [ POST (plain_request "shared" None) ] fresh_world).2.

Definition two_sessions : World :=
  (serve healthy
     [ POST (plain_request "shared" None);
       POST (plain_request "shared" None) ] fresh_world).2.

(** As [healthy], but [transport.close] rejects. *)
Definition close_fails : Env :=
  fun X c tr =>
    match c in Call X return Reply X with
    | TransportClose _ => Rejected "write EPIPE"
    | c' => healthy _ c' tr
    end.

(** As [healthy], but the server's [cleanup] rejects. *)
Definition teardown_fails : Env :=
  fun X c tr =>
    match c in Call X return Reply X with
    | ServerCleanup _ => Rejected "kill ESRCH"
    | c' => healthy _ c' tr
    end.

(** As [healthy], but answering without regard to what was called before:
    the session id is always [uuid_of 1] and the transport always [101]. *)
Definition steady : Env :=
  fun X c tr =>
    match c in Call X return Reply X with
    | RandomUUID => Resolved (uuid_of 1)
    | NewTransport _ => Resolved 101
    | c' => healthy _ c' tr
    end.

(** As [healthy], for the second session of a scenario: the session id is
    always [uuid_of 2] and the transport always [102]. *)
Definition second_session : Env :=
  fun X c tr =>
    match c in Call X return Reply X with
    | RandomUUID => Resolved (uuid_of 2)
    | NewTransport _ => Resolved 102
    | c' => healthy _ c' tr
    end.

(** * The tool-execution-log route ([app/api/tool-execution-logs/route.ts]) *)

Module ToolExecutionLogs.

(** A value parsed by [request.json()].  Numbers are taken to be integers. *)
#[warnings="-register-all"]
Inductive Json : Type :=
| JNull
| JBool (b : bool)
| JNum (n : Z)
| JStr (s : string)
| JArr (items : list Json)
| JObj (members : list (string * Json)).

(** A JavaScript value that may be [undefined]. *)
Definition Value := option Json.

(** [!!v] *)
Definition truthy (v : Value) : bool :=
  match v with
  | None | Some JNull | Some (JBool false) => false
  | Some (JNum n) => negb (n =? 0)%Z
  | Some (JStr s) => negb (String.eqb s "")
  | Some _ => true
  end.

(** [v || d] *)
Definition or_else (v : Value) (d : Json) : Json :=
  match v with
  | Some j => if truthy v then j else d
  | None => d
  end.

(** The member of a parsed object; of two members with one name the later
    one counts. *)
Fixpoint member_of (name : string) (members : list (string * Json)) : Value :=
  match members with
  | [] => None
  | (k, v) :: rest =>
      match member_of name rest with
      | Some later => Some later
      | None => if String.eqb k name then Some v else None
      end
  end.

(** The properties the route destructures from the body. *)
Record Fields := {
  mcp_server_uuid : Value;
  tool_name : Value;
  payload : Value;
  result : Value;
  status : Value;
  error_message : Value;
  execution_time_ms : Value
}.

(** [const { mcp_server_uuid, tool_name, ... } = body]: destructuring [null]
    throws, and a string, number, boolean or array has none of these
    properties. *)
Definition destructure (body : Json) : Reply Fields :=
  match body with
  | JNull =>
      Rejected "TypeError: Cannot destructure property 'mcp_server_uuid' of 'body' as it is null."
  | JObj members =>
      Resolved {| mcp_server_uuid := member_of "mcp_server_uuid" members;
                  tool_name := member_of "tool_name" members;
                  payload := member_of "payload" members;
                  result := member_of "result" members;
                  status := member_of "status" members;
                  error_message := member_of "error_message" members;
                  execution_time_ms := member_of "execution_time_ms" members |}
  | _ =>
      Resolved {| mcp_server_uuid := None; tool_name := None; payload := None;
                  result := None; status := None; error_message := None;
                  execution_time_ms := None |}
  end.

(** The row handed to [db.insert(toolExecutionLogsTable).values(...)]. *)
Record LogValues := {
  v_mcp_server_uuid : Json;
  v_tool_name : Value;
  v_payload : Json;
  v_result : Json;
  v_status : Json;
  v_error_message : Json;
  v_execution_time_ms : Json
}.

(** [PENDING] stands for [ToolExecutionStatus.PENDING], which the schema
    module defines. *)
Definition log_values (PENDING : Json) (f : Fields) : LogValues :=
  {| v_mcp_server_uuid := or_else (mcp_server_uuid f) JNull;
     v_tool_name := tool_name f;
     v_payload := or_else (payload f) (JObj []);
     v_result := or_else (result f) JNull;
     v_status := or_else (status f) PENDING;
     v_error_message := or_else (error_message f) JNull;
     v_execution_time_ms := or_else (execution_time_ms f) JNull |}.

(** What [authenticateApiKey] of [app/api/auth] returned: its own error
    response, or the caller's active profile. *)
Inductive Auth : Type :=
| Denied (error : string)
| Granted (activeProfileUuid : string).

(** The two queries; the last argument counts the earlier invocations made
    by the [retryDbQuery] that runs the query. *)
Record Database := {
  select_server : Json -> string -> nat -> Reply (list string);
  insert_log : LogValues -> nat -> Reply (list string)
}.

Inductive Answer : Type :=
| AuthError (error : string)               (* return auth.error *)
| Json_ (code : nat) (error : string)      (* NextResponse.json({ error }, { status }) *)
| Created (row : string).                  (* NextResponse.json(rows[0]) *)

(** The answer, and how often each query was invoked. *)
Record Handled := {
  answer : Answer;
  selects : nat;
  inserts : nat
}.

Definition failed (selects inserts : nat) : Handled :=
  {| answer := Json_ 500 "Failed to create tool execution log";
     selects := selects;
     inserts := inserts |}.

(** [POST]; [auth] and [json] are how [authenticateApiKey(request)] and
    [request.json()] settle.  If the insert resolves to no row,
    [newToolExecutionLog[0]] is [undefined], which [NextResponse.json]
    cannot serialise: it throws inside the [try], and the [catch] answers. *)
Definition POST (PENDING : Json) (db : Database)
    (auth : Reply Auth) (json : Reply Json) : Handled :=
  match auth with
  | Rejected _ => failed 0 0
  | Resolved (Denied error) =>
      {| answer := AuthError error; selects := 0; inserts := 0 |}
  | Resolved (Granted activeProfileUuid) =>
      match json with
      | Rejected _ => failed 0 0
      | Resolved body =>
          match destructure body with
          | Rejected _ => failed 0 0
          | Resolved f =>
              if negb (truthy (tool_name f)) then
                {| answer := Json_ 400 "Tool name is required";
                   selects := 0; inserts := 0 |}
              else
                let insert selects :=
                  match retryDbQuery (insert_log db (log_values PENDING f))
                          no_options with
                  | (Resolved (row :: _), inserts) =>
                      {| answer := Created row;
                         selects := selects; inserts := inserts |}
                  | (Resolved [], inserts) => failed selects inserts
                  | (Rejected _, inserts) => failed selects inserts
                  end in
                match mcp_server_uuid f with
                | Some uuid =>
                    if truthy (Some uuid) then
                      match retryDbQuery
                              (select_server db uuid activeProfileUuid)
                              no_options with
                      | (Resolved mcpServer, selects) =>
                          if (length mcpServer =? 0)%nat then
                            {| answer :=
                                 Json_ 404
                                   "MCP server not found or does not belong to your profile";
                               selects := selects; inserts := 0 |}
                          else insert selects
                      | (Rejected _, selects) => failed selects 0
                      end
                    else insert 0%nat
                | None => insert 0%nat
                end
          end
      end
  end.

End ToolExecutionLogs.

(** Two values either equal or both falsy ([undefined], [null], [false],
    [0], the empty string). *)
Definition same_or_falsy (v v' : ToolExecutionLogs.Value) : Prop :=
  v = v'
  \/ (ToolExecutionLogs.truthy v = false /\ ToolExecutionLogs.truthy v' = false).

(** A database in which every server belongs to the caller and every insert
    returns its row. *)
Definition working_database : ToolExecutionLogs.Database :=
  {| ToolExecutionLogs.select_server := fun _ _ _ => Resolved [ "server-1" ];
     ToolExecutionLogs.insert_log := fun _ _ => Resolved [ "log-1" ] |}.

(** * The API-key actions ([getFirstApiKey]) *)

Module ApiKeys.

(** A row of [apiKeysTable], as far as the actions read it. *)
Record ApiKey := {
  project_uuid : string;
  api_key : string
}.

(** The queries of [getFirstApiKey]; the last argument counts the earlier
    invocations made by the [retryDbQuery] that runs the query. *)
Record Database := {
  find_first : string -> nat -> Reply (option ApiKey);
  insert_key : ApiKey -> nat -> Reply unit;
  find_first_again : string -> nat -> Reply (option ApiKey)
}.

(** The result, and how often the lookups and the insert were invoked. *)
Record Fetched := {
  returned : Reply (option ApiKey);
  lookups : nat;
  inserts : nat
}.

(** [getFirstApiKey]; [nanoid] is what [nanoid(64)] gives. *)
Definition getFirstApiKey (db : Database) (nanoid : string)
    (projectUuid : string) : Fetched :=
  if String.eqb projectUuid "" then
    {| returned := Resolved None; lookups := 0; inserts := 0 |}
  else
    match retryDbQuery (find_first db projectUuid) no_options with
    | (Rejected error, n) =>
        {| returned := Rejected error; lookups := n; inserts := 0 |}
    | (Resolved (Some apiKey), n) =>
        {| returned := Resolved (Some apiKey); lookups := n; inserts := 0 |}
    | (Resolved None, n) =>
        let newApiKey := "sk_mt_" ++ nanoid in
        match retryDbQuery
                (insert_key db {| project_uuid := projectUuid;
                                  api_key := newApiKey |})
                no_options with
        | (Rejected error, i) =>
            {| returned := Rejected error; lookups := n; inserts := i |}
        | (Resolved _, i) =>
            match retryDbQuery (find_first_again db projectUuid) no_options with
            | (found, m) =>
                {| returned := found; lookups := n + m; inserts := i |}
            end
        end
    end.

End ApiKeys.

(** * Invariants under interleaving *)

(** [preserved I p st]: when [p] starts in store [st], every store it leaves
    at an await or at its end satisfies [I], provided the stores it finds
    when it resumes after an await satisfy [I]. *)
Fixpoint preserved {A} (I : Store -> Prop) (p : Prog A) (st : Store) : Prop :=
  match p with
  | Ret _ | Throw _ => True
  | Get k => preserved I (k st) st
  | Modify f k => I (f st) /\ preserved I k (f st)
  | Yield k => forall st', I st' -> preserved I k st'
  | Vis c k =>
      if awaited c
      then forall r st', I st' -> preserved I (k r) st'
      else forall r, preserved I (k r) st
  end.

Definition task_preserved {A} (I : Store -> Prop) (t : Task A) : Prop :=
  match t with
  | Ready p => forall st, I st -> preserved I p st
  | Parked c k => forall r st, I st -> preserved I (k r) st
  | Finished _ => True
  end.

(** * Properties *)

(** ** The interpreters agree *)

Lemma run_bind {A B} env (p : Prog A) (f : A -> Prog B) w :
  run env (p ≫= f) w =
  match run env p w with
  | (Resolved a, w') => run env (f a) w'
  | (Rejected e, w') => (Rejected e, w')
  end.
Proof.
  unfold mbind, Prog_bind. revert w.
  induction p as [a|e|k IH|g k IH|k IH|X c k IH]; intros w; simpl; auto.
Qed.

Lemma run_settle {A} env (p : Prog A) w :
  run env (settle p) w = (Resolved (run env p w).1, (run env p w).2).
Proof.
  revert w.
  induction p as [a|e|k IH|g k IH|k IH|X c k IH]; intros w; simpl; auto.
Qed.

Lemma run_try_catch {A} env (p : Prog A) h w :
  run env (try_catch p h) w =
  match run env p w with
  | (Resolved a, w') => (Resolved a, w')
  | (Rejected e, w') => run env (h e) w'
  end.
Proof.
  unfold try_catch. rewrite (run_bind env), (run_settle env).
  destruct (run env p w) as [[a|e] w']; reflexivity.
Qed.

Lemma run_await_fn {A} env (p : Prog A) w :
  run env (await_fn p) w = run env p w.
Proof.
  unfold await_fn. rewrite (run_bind env), (run_settle env).
  destruct (run env p w) as [[a|e] w']; reflexivity.
Qed.

Lemma run_call {X} env (c : Call X) w :
  run env (call c) w = (env _ c (trace (record c w)), record c w).
Proof.
  unfold call. simpl. destruct (env X c _); reflexivity.
Qed.

(** One step of symbolic execution of [run env]. *)
Ltac run_step env :=
  first [ rewrite (run_try_catch env)
        | rewrite (run_await_fn env)
        | rewrite (run_bind env)
        | rewrite (run_call env) ].

(** A handler that has the event loop for itself ends as [run] says. *)
Lemma turn_single {A} (env : Env) (t : Task A) (w : World) :
  turn env 0 ([t], w) = ([(resume env t w).1], (resume env t w).2).
Proof. unfold turn. simpl. destruct (resume env t w). reflexivity. Qed.

Lemma advance_finishes {A} (env : Env) (p : Prog A) (w : World) :
  exists n,
    run_schedule env (replicate n 0%nat)
      ([(advance env p w).1], (advance env p w).2)
    = ([Finished (run env p w).1], (run env p w).2).
Proof.
  revert w.
  induction p as [a|e|k IH|g k IH|k IH|X c k IH]; intros w; simpl.
  - exists 0%nat. reflexivity.
  - exists 0%nat. reflexivity.
  - apply IH.
  - apply IH.
  - destruct (IH w) as [n Hn]. exists (S n).
    simpl. rewrite turn_single. exact Hn.
  - destruct (awaited c).
    + destruct (IH (env X c (trace (record c w))) (record c w)) as [n Hn].
      exists (S n). simpl. rewrite turn_single. exact Hn.
    + apply IH.
Qed.

Lemma run_single_task {A} (env : Env) (p : Prog A) (w : World) :
  exists n,
    run_schedule env (replicate n 0%nat) ([Ready p], w)
    = ([Finished (run env p w).1], (run env p w).2).
Proof.
  destruct (advance_finishes env p w) as [n Hn]. exists (S n).
  simpl. rewrite turn_single. exact Hn.
Qed.

(** ** The API-key gate *)

(** C6.  On an endpoint whose API-key authentication is off, the gate calls
    [next()] at once, whatever credentials the request carries or lacks: the
    handler runs on a request with no key identity attached, and the only
    call issued before it is the endpoint lookup (the key validator is not
    called). *)
Theorem open_endpoint_needs_no_credential
    (env : Env) (w : World) (req : Request)
    (handler : AuthenticatedRequest -> Prog Outcome) (ep : Endpoint) :
  let lookup := FindByName (endpoint_name req) in
  let authReq :=
    {| request := req;
       namespaceUuid := namespace_uuid ep;
       endpointName := endpoint_name req;
       endpoint := ep;
       apiKeyUserId := None;
       apiKeyUuid := None |} in
  env _ lookup (trace (record lookup w)) = Resolved (Some ep) ->
  enable_api_key_auth ep = false ->
  run env (authenticateApiKey authReq) (record lookup w)
    = (Resolved (Next authReq), record lookup w)
  /\ run env (route handler req) w = run env (handler authReq) (record lookup w).
Proof.
  intros lookup authReq Hfound Hoff.
  assert (Hgate : forall w', run env (authenticateApiKey authReq) w'
                             = (Resolved (Next authReq), w')).
  { intros w'. unfold authenticateApiKey. simpl. rewrite Hoff. reflexivity. }
  split; [apply Hgate|].
  assert (Hlookup : run env (lookupEndpoint req) w
                    = (Resolved (Next authReq), record lookup w)).
  { unfold lookupEndpoint. do 3 run_step env. fold lookup.
    rewrite Hfound. reflexivity. }
  unfold route. run_step env. rewrite Hlookup.
  run_step env. rewrite Hgate. reflexivity.
Qed.

Lemma open_endpoint_needs_no_credential_witness :
  run healthy (route handle_get (plain_request "weather" None)) fresh_world
  = run healthy (handle_get (authenticated (plain_request "weather" None)
                               open_endpoint))
      (record (FindByName "weather") fresh_world).
Proof.
  apply (open_endpoint_needs_no_credential healthy fresh_world
           (plain_request "weather" None) handle_get open_endpoint);
    reflexivity.
Defined.

(** C5.  On an endpoint with API-key authentication on and query-parameter
    authentication off, a request with no [Authorization: Bearer ...] header
    and no [X-API-Key] header is answered 401 "Authentication required",
    whatever its [api_key] and [apikey] query parameters are; nothing is
    called on the way, so the key validator does not see the request. *)
Theorem query_credential_ignored
    (env : Env) (w : World) (authReq : AuthenticatedRequest) :
  enable_api_key_auth (endpoint authReq) = true ->
  use_query_param_auth (endpoint authReq) = false ->
  match authorization (request authReq) with
  | Some authHeader => String.prefix "Bearer " authHeader = false
  | None => True
  end ->
  x_api_key (request authReq) = None ->
  run env (authenticateApiKey authReq) w
  = (Resolved (Answered
       {| status := 401;
          body := JsonMessage "Authentication required"
            "API key required in one of: Authorization header (Bearer token), X-API-Key header" |}),
     w).
Proof.
  intros Hon Hquery Hbearer Hkey.
  unfold authenticateApiKey. rewrite Hon. simpl negb. cbv iota.
  run_step env.
  assert (Hnone : header_api_key (request authReq) = None).
  { unfold header_api_key. destruct (authorization (request authReq)) as [h|].
    - rewrite Hbearer, andb_false_r. exact Hkey.
    - exact Hkey. }
  cbv zeta. rewrite Hnone. unfold accepted_methods. rewrite Hquery.
  reflexivity.
Qed.

Lemma query_credential_ignored_witness :
  run healthy (authenticateApiKey (authenticated query_only_request secure_endpoint))
      fresh_world
  = (Resolved (Answered
       {| status := 401;
          body := JsonMessage "Authentication required"
            "API key required in one of: Authorization header (Bearer token), X-API-Key header" |}),
     fresh_world).
Proof.
  apply (query_credential_ignored healthy fresh_world
           (authenticated query_only_request secure_endpoint));
    reflexivity || exact I.
Defined.

(** ** Sessions *)

Lemma truthy_Some (s : string) : s <> "" -> truthy (Some s) = true.
Proof.
  intros Hs. unfold truthy.
  destruct (String.eqb_spec s ""); [contradiction | reflexivity].
Qed.


Lemma js_get_Some {V} (m : gmap string V) (k : string) (v : V) :
  m !! k = Some v -> js_get m k = Own v.
Proof. intros H. unfold js_get. rewrite H. reflexivity. Qed.

(** Case analysis on the next reply of the collaborators that the run in
    [H] (or in the goal) waits for. *)
Ltac case_reply_in env H :=
  match type of H with
  | context [env ?X ?c ?tr] =>
      destruct (env X c tr) as [?|?] eqn:?; cbn in H
  end.

Ltac case_reply env :=
  match goal with
  | |- context [env ?X ?c ?tr] =>
      destruct (env X c tr) as [?|?] eqn:?; cbn
  end.




(** ** Ending a session *)

(** C2, as the code has it.  DELETE with a session id that [transports] does
    not hold (never issued, or already ended) and that is no member of
    [Object.prototype] reports no error: when the per-session cleanup hook
    and the server teardown it may trigger succeed, the answer is 200 with an
    empty body, and [transports] is as before. *)
Theorem end_unknown_session_answers_200
    (env : Env) (w : World) (authReq : AuthenticatedRequest) (sid : string) :
  mcp_session_id (request authReq) = Some sid ->
  sid <> "" ->
  js_get (transports (store w)) sid = Missing ->
  (forall tr, env _ (CleanupSessionConnections sid) tr = Resolved tt) ->
  (forall srv tr, env _ (ServerCleanup srv) tr = Resolved tt) ->
  exists w',
    run env (handle_delete authReq) w
      = (Resolved (Responded {| status := 200; body := NoBody |}), w')
    /\ transports (store w') = transports (store w).
Proof.
  intros Hsid Hne Hmissing Hhook Hteardown.
  unfold handle_delete. rewrite Hsid, (truthy_Some sid Hne).
  unfold cleanupSession, cleanupEndpointIfUnused.
  cbn. rewrite Hmissing. cbn.
  destruct (bool_decide (0 < default 0 _)%Z); cbn; rewrite Hhook; cbn;
    destruct (bool_decide (default 0 _ ≤ 0)%Z); cbn;
    try (eexists; split; reflexivity);
    destruct (metamcpServers (store w) !! endpointName authReq); cbn;
    rewrite ?Hteardown; cbn; eexists; split; reflexivity.
Qed.

Lemma end_unknown_session_answers_200_witness :
  exists w',
    run healthy
        (handle_delete
           (authenticated (plain_request "weather" (Some stale_session))
              open_endpoint))
        fresh_world
      = (Resolved (Responded {| status := 200; body := NoBody |}), w')
    /\ transports (store w') = transports (store fresh_world).
Proof.
  apply (end_unknown_session_answers_200 healthy fresh_world
           (authenticated (plain_request "weather" (Some stale_session))
              open_endpoint) stale_session);
    first [ reflexivity | discriminate | intros; reflexivity ].
Defined.

(** C2 as stated fails: a session is begun and ended, then ended again, and a
    session id that was never issued is ended as well; every DELETE is
    answered 200. *)
Lemma end_twice_answers_200_twice :
  (serve healthy
     [ POST (plain_request "weather" None);
       DELETE (plain_request "weather" (Some (uuid_of 1)));
       DELETE (plain_request "weather" (Some (uuid_of 1)));
       DELETE (plain_request "weather" (Some stale_session)) ]
     fresh_world).1
  = [ Resolved (Forwarded 101);
      Resolved (Responded {| status := 200; body := NoBody |});
      Resolved (Responded {| status := 200; body := NoBody |});
      Resolved (Responded {| status := 200; body := NoBody |}) ].
Proof. vm_compute. reflexivity. Qed.

(** C3 fails on the code.  Two sessions are begun on one endpoint and the
    first one is ended twice.  The second DELETE finds no transport but
    still decrements the endpoint's count, which reaches zero: the server
    both transports were connected to is torn down and its entries are
    dropped, while the second session is still in [transports]. *)
Theorem stale_end_tears_down_live_server :
  let w :=
    (serve healthy
       [ POST (plain_request "shared" None);
         POST (plain_request "shared" None);
         DELETE (plain_request "shared" (Some (uuid_of 1)));
         DELETE (plain_request "shared" (Some (uuid_of 1))) ]
       fresh_world).2 in
  map_to_list (transports (store w)) = [ (uuid_of 2, 102) ]
  /\ connections (trace w) = [ (1, 101); (1, 102) ]
  /\ teardowns (trace w) = [ 1 ]
  /\ metamcpServers (store w) !! "shared" = None
  /\ endpointSessionCounts (store w) !! "shared" = None.
Proof. vm_compute. repeat split; reflexivity. Qed.

(** ** Concurrent first requests *)

(** C1 fails on the code.  Two first POSTs for the endpoint ["shared"], which
    has no cached server, interleave at their awaits: the second reaches
    [createMetaMcpServer] while the first one's [createServer] is still in
    flight.  Both find the cache empty and both call [createServer]; the
    sessions end up connected to two different servers, and the cache keeps
    only the second one. *)
Theorem concurrent_begin_creates_two_servers :
  let first := POST (plain_request "shared" None) in
  let second := POST (plain_request "shared" None) in
  let '(pool, w) :=
    run_schedule healthy [0; 0; 1; 1; 0; 0; 0; 0; 1; 1; 1; 1]%nat
      ([Ready first; Ready second], fresh_world) in
  pool = [ Finished (Resolved (Forwarded 101));
           Finished (Resolved (Forwarded 102)) ]
  /\ count_calls is_CreateServer (trace w) = 2%nat
  /\ connections (trace w) = [ (1, 101); (2, 102) ]
  /\ metamcpServers (store w) !! "shared" = Some 2%nat
  /\ endpointSessionCounts (store w) !! "shared" = Some 2%Z.
Proof. vm_compute. repeat split; reflexivity. Qed.

(** Ending both sessions afterwards tears down the cached server only: the
    server the first session is connected to is never cleaned up. *)
Lemma concurrent_begin_leaks_first_server :
  let begins :=
    run_schedule healthy [0; 0; 1; 1; 0; 0; 0; 0; 1; 1; 1; 1]%nat
      ([Ready (POST (plain_request "shared" None));
        Ready (POST (plain_request "shared" None))], fresh_world) in
  let w :=
    (serve healthy
       [ DELETE (plain_request "shared" (Some (uuid_of 1)));
         DELETE (plain_request "shared" (Some (uuid_of 2))) ]
       begins.2).2 in
  teardowns (trace w) = [ 2%nat ]
  /\ transports (store w) = ∅
  /\ metamcpServers (store w) = ∅.
Proof. vm_compute. repeat split; reflexivity. Qed.

(** Served one after the other, the same two POSTs share one server. *)
Lemma sequential_begin_creates_one_server :
  let w :=
    (serve healthy
       [ POST (plain_request "shared" None);
         POST (plain_request "shared" None) ]
       fresh_world).2 in
  count_calls is_CreateServer (trace w) = 1%nat
  /\ connections (trace w) = [ (1, 101); (1, 102) ]
  /\ endpointSessionCounts (store w) !! "shared" = Some 2%Z.
Proof. vm_compute. repeat split; reflexivity. Qed.

(** ** Beginning a session *)

(** C4, as the code has it.  During a Begin the transport is stored in
    [transports], under the new session id, before
    [server.connect(transport)] is called: at the time of the call the entry
    is already in the map, where any other request can find it, and it still
    is there when the Begin is over, whether the connection succeeded or
    not. *)
Theorem begin_registers_before_connect
    (env : Env) (w : World) (authReq : AuthenticatedRequest) (sid : string) :
  env _ RandomUUID (trace (record RandomUUID w)) = Resolved sid ->
  let w' := (run env (begin_session authReq) w).2 in
  Forall (fun ev => registered_at sid (ev_store ev) ev
                    /\ registered_at sid (store w') ev)
         (issued_after (length (trace w)) w').
Proof.
  intros Huuid. unfold begin_session. cbn in Huuid |- *. rewrite Huuid. cbn.
  destruct (metamcpServers (store w) !! endpointName authReq); cbn;
    repeat case_reply env;
    unfold issued_after, record; cbn [trace store];
    rewrite <- ?app_assoc, drop_app_length;
    repeat constructor; cbn; try apply lookup_insert_eq.
Qed.

Lemma begin_registers_before_connect_witness :
  let authReq := authenticated (plain_request "shared" None) open_endpoint in
  let w' := (run healthy (begin_session authReq) fresh_world).2 in
  Forall (fun ev => registered_at (uuid_of 1) (ev_store ev) ev
                    /\ registered_at (uuid_of 1) (store w') ev)
         (issued_after 0 w').
Proof.
  intros authReq.
  apply (begin_registers_before_connect healthy fresh_world authReq
           (uuid_of 1)).
  reflexivity.
Defined.

(** C4 as stated fails: when [server.connect] rejects, the Begin is answered
    500, the connection was never made, and the session's transport is in
    [transports]. *)
Lemma failed_connect_leaves_session_registered :
  let '(reply, w) :=
    run connect_fails (POST (plain_request "shared" None)) fresh_world in
  reply = Resolved (Responded
            {| status := 500;
               body := JsonOf "connect ECONNREFUSED 10.0.0.7:5432" |})
  /\ transports (store w) !! uuid_of 1 = Some 101%nat
  /\ connections (trace w) = [ (1, 101) ]%nat.
Proof. vm_compute. repeat split; reflexivity. Qed.

(** C7, as the code has it.  For an endpoint whose name is no member name
    of [Object.prototype]: a Begin that fails is answered 500 with the thrown
    value as body, and releases nothing.  If it failed before the transport
    constructor was reached (no session id, or no server), the session count
    was not incremented yet and the store is as before.  Otherwise the
    endpoint's count stays incremented by one and its server stays cached;
    and if [server.connect] was reached, the transport stays in
    [transports]. *)
Theorem failed_begin_releases_nothing
    (env : Env) (w w' : World) (authReq : AuthenticatedRequest)
    (res : Response) :
  inherited (endpointName authReq) = false ->
  run env (begin_session authReq) w = (Resolved (Responded res), w') ->
  let e := endpointName authReq in
  let issued := issued_after (length (trace w)) w' in
  (exists error, res = {| status := 500; body := JsonOf error |})
  /\ match count_calls is_NewTransport issued with
     | O => store w' = store w
     | S _ =>
         endpointSessionCounts (store w') !! e
           = Some (default 0 (endpointSessionCounts (store w) !! e) + 1)%Z
         /\ is_Some (metamcpServers (store w') !! e)
         /\ match count_calls is_ServerConnect issued with
            | O => transports (store w') = transports (store w)
            | S _ =>
                exists sid t,
                  transports (store w') = <[sid := t]> (transports (store w))
            end
     end.
Proof.
  intros Hplain Hrun e issued. subst e issued.
  unfold begin_session in Hrun. cbn in Hrun.
  case_reply_in env Hrun;
    [destruct (metamcpServers (store w) !! endpointName authReq) eqn:Hcache;
     cbn in Hrun|];
    repeat case_reply_in env Hrun;
    inversion Hrun; subst; clear Hrun;
    (split; [eexists; reflexivity|]);
    unfold issued_after, record; cbn [trace store];
    rewrite <- ?app_assoc, drop_app_length; cbn;
    rewrite ?lookup_insert_eq, ?Hcache;
    repeat split; eauto.
Qed.

Lemma failed_begin_releases_nothing_witness :
  let authReq := authenticated (plain_request "shared" None) open_endpoint in
  let w' := (run connect_fails (begin_session authReq) fresh_world).2 in
  (exists error,
     {| status := 500; body := JsonOf "connect ECONNREFUSED 10.0.0.7:5432" |}
     = {| status := 500; body := JsonOf error |})
  /\ endpointSessionCounts (store w') !! "shared" = Some 1%Z
  /\ is_Some (metamcpServers (store w') !! "shared")
  /\ exists sid t, transports (store w') = <[sid := t]> ∅.
Proof.
  intros authReq w'.
  apply (failed_begin_releases_nothing connect_fails fresh_world w' authReq);
    reflexivity.
Defined.

(** C7 as stated fails: [server.connect] rejects, the Begin is answered 500,
    and afterwards the endpoint still counts one session and the transport is
    still in [transports]. *)
Lemma failed_connect_keeps_count_and_transport :
  let '(reply, w) :=
    run connect_fails (POST (plain_request "shared" None)) fresh_world in
  reply = Resolved (Responded
            {| status := 500;
               body := JsonOf "connect ECONNREFUSED 10.0.0.7:5432" |})
  /\ endpointSessionCounts (store fresh_world) !! "shared" = None
  /\ endpointSessionCounts (store w) !! "shared" = Some 1%Z
  /\ transports (store w) !! uuid_of 1 = Some 101%nat.
Proof. vm_compute. repeat split; reflexivity. Qed.

(** ** Internal failures *)

(** C8 fails on the code.  The route handlers answer a failure with the value
    they caught: a rejected dispatch on GET, on a first POST and on a later
    POST, and a session id that names a member of [Object.prototype], all
    put the thrown value in the body of the 500 response.  (The two
    middlewares answer their own failures with a fixed message.) *)
Theorem handler_failure_exposes_error :
  let payload := "{code:-32000,data:{upstream:10.0.0.7:5432}}" in
  let leaked :=
    Resolved (Responded {| status := 500; body := JsonOf payload |}) in
  let w1 := (run healthy (POST (plain_request "shared" None)) fresh_world).2 in
  let s1 := Some (uuid_of 1) in
  (run dispatch_fails (POST (plain_request "shared" None)) fresh_world).1
    = leaked
  /\ (run dispatch_fails (GET (plain_request "shared" s1)) w1).1 = leaked
  /\ (run dispatch_fails (POST (plain_request "shared" s1)) w1).1 = leaked
  /\ (run healthy (DELETE (plain_request "shared" (Some "constructor"))) w1).1
     = Resolved (Responded
         {| status := 500;
            body := JsonOf "TypeError: transport.close is not a function" |}).
Proof. vm_compute. repeat split; reflexivity. Qed.

(** ** The session counts are never negative *)

Lemma counts_nonneg_set_transports f st :
  counts_nonneg st -> counts_nonneg (set_transports f st).
Proof. intros H. exact H. Qed.

Lemma counts_nonneg_set_metamcpServers f st :
  counts_nonneg st -> counts_nonneg (set_metamcpServers f st).
Proof. intros H. exact H. Qed.

Lemma counts_nonneg_default e st :
  counts_nonneg st -> (0 ≤ default 0 (endpointSessionCounts st !! e))%Z.
Proof.
  intros H. destruct (endpointSessionCounts st !! e) as [m|] eqn:Hm; simpl.
  - exact (H e m Hm).
  - lia.
Qed.

Lemma counts_nonneg_insert e n st :
  (0 ≤ n)%Z ->
  counts_nonneg st ->
  counts_nonneg (set_endpointSessionCounts <[e := n]> st).
Proof.
  intros Hn H e' n'. unfold set_endpointSessionCounts. simpl.
  destruct (decide (e = e')) as [->|Hne].
  - rewrite lookup_insert_eq. intros [= <-]. exact Hn.
  - rewrite lookup_insert_ne by exact Hne. apply H.
Qed.

Lemma counts_nonneg_decrement e st :
  (0 < default 0 (endpointSessionCounts st !! e))%Z ->
  counts_nonneg st ->
  counts_nonneg
    (set_endpointSessionCounts (alter (fun n => n - 1)%Z e) st).
Proof.
  intros Hpos H e' n. unfold set_endpointSessionCounts. simpl.
  destruct (decide (e = e')) as [->|Hne].
  - rewrite lookup_alter_eq.
    destruct (endpointSessionCounts st !! e') as [m|]; simpl in *; [|done].
    intros [= <-]. lia.
  - rewrite lookup_alter_ne by exact Hne. apply H.
Qed.

Lemma counts_nonneg_delete e st :
  counts_nonneg st ->
  counts_nonneg (set_endpointSessionCounts (delete e) st).
Proof.
  intros H e' n. unfold set_endpointSessionCounts. simpl.
  intros Hn. apply lookup_delete_Some in Hn as [_ Hn]. exact (H e' n Hn).
Qed.

Ltac counts_nonneg :=
  repeat first
    [ assumption
    | apply counts_nonneg_set_transports
    | apply counts_nonneg_set_metamcpServers
    | apply counts_nonneg_delete
    | apply counts_nonneg_insert;
      [ match goal with
        | H : counts_nonneg ?st |- (0 ≤ default 0 (_ !! ?e) + 1)%Z =>
            pose proof (counts_nonneg_default e st H); lia
        end | ]
    | apply counts_nonneg_decrement;
      [ match goal with
        | H : bool_decide _ = true |- _ =>
            apply bool_decide_eq_true_1 in H; exact H
        end | ] ].

Lemma begin_session_counts_nonneg (env : Env) (w : World)
    (authReq : AuthenticatedRequest) :
  counts_nonneg (store w) ->
  counts_nonneg (store (run env (begin_session authReq) w).2).
Proof.
  intros H. unfold begin_session. cbn.
  case_reply env;
    [destruct (metamcpServers (store w) !! endpointName authReq); cbn|];
    repeat case_reply env; counts_nonneg.
Qed.

Lemma cleanupSession_counts_nonneg (env : Env) (w : World)
    (sessionId endpointName : string) :
  counts_nonneg (store w) ->
  counts_nonneg (store (run env (cleanupSession sessionId endpointName) w).2).
Proof.
  intros H. unfold cleanupSession, cleanupEndpointIfUnused. cbn.
  destruct (js_get (transports (store w)) sessionId); cbn;
    [case_reply env| |];
    try assumption;
    (destruct (bool_decide (0 < default 0 _)%Z) eqn:Hpos; cbn;
     case_reply env; counts_nonneg;
     (destruct (bool_decide (default 0 _ ≤ 0)%Z); cbn; counts_nonneg;
      destruct (metamcpServers (store w) !! endpointName); cbn;
      counts_nonneg; case_reply env; counts_nonneg)).
Qed.

Lemma handle_get_counts_nonneg (env : Env) (w : World)
    (authReq : AuthenticatedRequest) :
  counts_nonneg (store w) ->
  counts_nonneg (store (run env (handle_get authReq) w).2).
Proof.
  intros H. unfold handle_get. cbn.
  destruct (js_get (transports (store w)) _); cbn;
    try case_reply env; assumption.
Qed.

Lemma handle_post_counts_nonneg (env : Env) (w : World)
    (authReq : AuthenticatedRequest) :
  counts_nonneg (store w) ->
  counts_nonneg (store (run env (handle_post authReq) w).2).
Proof.
  intros H. unfold handle_post.
  destruct (negb (truthy (mcp_session_id (request authReq)))).
  - apply begin_session_counts_nonneg, H.
  - unfold continue_session. cbn.
    destruct (js_get (transports (store w)) _); cbn;
      try case_reply env; assumption.
Qed.

Lemma handle_delete_counts_nonneg (env : Env) (w : World)
    (authReq : AuthenticatedRequest) :
  counts_nonneg (store w) ->
  counts_nonneg (store (run env (handle_delete authReq) w).2).
Proof.
  intros H. unfold handle_delete.
  destruct (truthy (mcp_session_id (request authReq))); [|exact H].
  run_step env. run_step env. run_step env.
  pose proof (cleanupSession_counts_nonneg env w
                (default "" (mcp_session_id (request authReq)))
                (endpointName authReq) H) as Hclean.
  destruct (run env (cleanupSession _ _) w) as [[[]|error] w']; exact Hclean.
Qed.

Lemma route_counts_nonneg (env : Env) (w : World) (req : Request)
    (handler : AuthenticatedRequest -> Prog Outcome) :
  (forall w' authReq,
     counts_nonneg (store w') ->
     counts_nonneg (store (run env (handler authReq) w').2)) ->
  counts_nonneg (store w) ->
  counts_nonneg (store (run env (route handler req) w).2).
Proof.
  intros Hhandler H. unfold route, lookupEndpoint. cbn.
  case_reply env; [|exact H].
  destruct a as [ep|]; cbn; [|exact H].
  unfold authenticateApiKey. cbn.
  destruct (enable_api_key_auth ep); cbn; [|apply Hhandler, H].
  destruct (negb (truthy _)); cbn; [exact H|].
  case_reply env; [|exact H].
  destruct (valid a); cbn; [apply Hhandler, H|exact H].
Qed.

Lemma serve_counts_nonneg (env : Env) (ps : list (Prog Outcome)) (w : World) :
  Forall (fun p => forall w',
            counts_nonneg (store w') ->
            counts_nonneg (store (run env p w').2)) ps ->
  counts_nonneg (store w) ->
  counts_nonneg (store (serve env ps w).2).
Proof.
  unfold serve. generalize (@nil (Reply Outcome)) as rs.
  revert w. induction ps as [|p ps IH]; intros w rs Hps H; simpl; [exact H|].
  inversion Hps as [|? ? Hp Hrest]; subst.
  specialize (Hp w H). unfold serve_one at 2. simpl.
  destruct (run env p w) as [r w']. apply IH; assumption.
Qed.

(** Whatever requests the router serves one after the other from an empty
    store, and however its collaborators answer, no endpoint ever has a
    negative session count. *)
Theorem session_counts_never_negative (env : Env)
    (reqs : list (Method * Request)) :
  counts_nonneg (store (serve env (handle <$> reqs) fresh_world).2).
Proof.
  apply serve_counts_nonneg.
  - apply Forall_fmap, Forall_forall. intros [[] req] _ w' H; simpl;
      apply route_counts_nonneg; auto using handle_get_counts_nonneg,
        handle_post_counts_nonneg, handle_delete_counts_nonneg.
  - intros e n Hn. simpl in Hn. rewrite lookup_empty in Hn. discriminate.
Qed.

(** ** Reusing the cached server *)

(** A first POST for an endpoint whose server is cached does not call
    [createServer]: it makes exactly one [server.connect] call, connecting
    the transport it constructed to the cached server, and leaves the cache
    entry as it is, whether the connection and the dispatch succeed or
    not. *)
Theorem cached_begin_reuses_server
    (env : Env) (w : World) (authReq : AuthenticatedRequest)
    (srv : ServerId) (sid : string) (t : TransportId) :
  metamcpServers (store w) !! endpointName authReq = Some srv ->
  env _ RandomUUID (trace (record RandomUUID w)) = Resolved sid ->
  (forall tr, env _ (NewTransport sid) tr = Resolved t) ->
  let w' := (run env (begin_session authReq) w).2 in
  let issued := issued_after (length (trace w)) w' in
  count_calls is_CreateServer issued = 0%nat
  /\ connections issued = [ (srv, t) ]
  /\ metamcpServers (store w') !! endpointName authReq = Some srv.
Proof.
  intros Hcache Huuid Hnew. unfold begin_session. cbn in Huuid |- *.
  rewrite Huuid. cbn. rewrite Hcache. cbn. rewrite Hnew. cbn.
  repeat case_reply env;
    unfold issued_after, record; cbn [trace store];
    rewrite <- ?app_assoc, drop_app_length; cbn;
    repeat split; exact Hcache.
Qed.

Lemma cached_begin_reuses_server_witness :
  let authReq := authenticated (plain_request "shared" None) open_endpoint in
  let w' := (run second_session (begin_session authReq) one_session).2 in
  let issued := issued_after (length (trace one_session)) w' in
  count_calls is_CreateServer issued = 0%nat
  /\ connections issued = [ (1%nat, 102%nat) ]
  /\ metamcpServers (store w') !! "shared" = Some 1%nat.
Proof.
  intros authReq.
  apply (cached_begin_reuses_server second_session one_session authReq 1%nat
           (uuid_of 2) 102%nat);
    first [ reflexivity | intros; reflexivity ].
Defined.

(** ** [retryDbQuery] *)

Section RetryFacts.
Context {T : Type}.
Variable query : nat -> Reply T.

(** The loop is [attempts] with as many retries as [attempt] is below
    [retries]. *)
Lemma retry_loop_attempts (limit attempt : Z) (calls : nat) :
  retry_loop query limit attempt calls
  = attempts query (Z.to_nat (limit - attempt)) calls.
Proof.
  funelim (retry_loop query limit attempt calls).
  - destruct (Z.to_nat _); simpl; rewrite Heq; reflexivity.
  - match goal with
    | |- context [Z.to_nat ?d] => replace (Z.to_nat d) with O by lia
    end.
    simpl. rewrite Heq0. reflexivity.
  - match goal with
    | IH : _ = attempts _ (Z.to_nat ?d') _ |- context [Z.to_nat ?d] =>
        replace (Z.to_nat d) with (S (Z.to_nat d')) by lia;
        simpl; rewrite Heq0; exact IH
    end.
Qed.

Lemma attempts_calls (n calls : nat) :
  (calls < (attempts query n calls).2 ≤ calls + n + 1)%nat.
Proof.
  revert calls. induction n as [|n IH]; intros calls; simpl.
  - destruct (query calls); simpl; lia.
  - destruct (query calls); simpl; [lia|]. specialize (IH (S calls)). lia.
Qed.

Lemma attempts_first_success (n calls i : nat) (v : T) :
  (i ≤ n)%nat ->
  query (calls + i) = Resolved v ->
  (forall j, (j < i)%nat -> exists e, query (calls + j) = Rejected e) ->
  attempts query n calls = (Resolved v, S (calls + i)).
Proof.
  revert calls i. induction n as [|n IH]; intros calls i Hi Hok Hfail.
  - assert (i = O) by lia. subst i. rewrite Nat.add_0_r in *.
    simpl. rewrite Hok. reflexivity.
  - destruct i as [|i].
    + rewrite Nat.add_0_r in *. simpl. rewrite Hok. reflexivity.
    + destruct (Hfail O) as [e He]; [lia|]. rewrite Nat.add_0_r in He.
      simpl. rewrite He.
      rewrite (IH (S calls) i); [f_equal; f_equal; lia|lia| |].
      * rewrite <- Hok. f_equal. lia.
      * intros j Hj. destruct (Hfail (S j)) as [e' He']; [lia|].
        exists e'. rewrite <- He'. f_equal. lia.
Qed.

Lemma attempts_all_fail (n calls : nat) (err : Exn) :
  (forall j, (j < n)%nat -> exists e, query (calls + j) = Rejected e) ->
  query (calls + n) = Rejected err ->
  attempts query n calls = (Rejected err, S (calls + n)).
Proof.
  revert calls. induction n as [|n IH]; intros calls Hfail Hlast.
  - rewrite Nat.add_0_r in *. simpl. rewrite Hlast. reflexivity.
  - destruct (Hfail O) as [e He]; [lia|]. rewrite Nat.add_0_r in He.
    simpl. rewrite He.
    rewrite (IH (S calls)); [f_equal; f_equal; lia| |].
    + intros j Hj. destruct (Hfail (S j)) as [e' He']; [lia|].
      exists e'. rewrite <- He'. f_equal. lia.
    + rewrite <- Hlast. f_equal. lia.
Qed.

End RetryFacts.

(** C10, as the code has it.  With [r] the value of [retries] (10 when the
    option is absent) and [n = max r 0], [retryDbQuery] invokes the query at
    least once and at most [n + 1] times; it returns the value of the first
    invocation that succeeds among these, after exactly that many
    invocations; and when all [n + 1] invocations throw it rethrows the
    error of the last one. *)
Theorem retryDbQuery_attempts {T : Type} (query : nat -> Reply T)
    (options : RetryOptions) :
  let n := Z.to_nat (default 10%Z (retries options)) in
  let outcome := retryDbQuery query options in
  (1 ≤ outcome.2 ≤ n + 1)%nat
  /\ (forall i v,
        (i ≤ n)%nat ->
        query i = Resolved v ->
        (forall j, (j < i)%nat -> exists e, query j = Rejected e) ->
        outcome = (Resolved v, S i))
  /\ (forall err,
        (forall j, (j < n)%nat -> exists e, query j = Rejected e) ->
        query n = Rejected err ->
        outcome = (Rejected err, S n)).
Proof.
  intros n outcome. subst outcome. unfold retryDbQuery.
  rewrite retry_loop_attempts, Z.sub_0_r. fold n.
  split; [|split].
  - pose proof (attempts_calls query n 0). lia.
  - intros i v Hi Hok Hfail.
    apply (attempts_first_success query n 0 i v Hi Hok Hfail).
  - intros err Hfail Hlast.
    apply (attempts_all_fail query n 0 err Hfail Hlast).
Qed.

(** With the default options the query is invoked at most 11 times. *)
Lemma retryDbQuery_default_bound {T : Type} (query : nat -> Reply T) :
  ((retryDbQuery query no_options).2 ≤ 11)%nat.
Proof.
  unfold retryDbQuery. rewrite retry_loop_attempts.
  pose proof (attempts_calls query (Z.to_nat (10 - 0)) 0) as H.
  simpl in H |- *. lia.
Qed.

Example retryDbQuery_flaky :
  retryDbQuery flaky no_options = (Resolved "rows", 3).
Proof. reflexivity. Qed.

(** C10 as stated fails for negative [retries]: with [retries = -1] and a
    query that always throws, the query is invoked once, which is more than
    [retries + 1 = 0] times. *)
Lemma retryDbQuery_negative_retries :
  let options := {| retries := Some (-1)%Z; delayMs := None |} in
  let outcome := retryDbQuery (fun _ => Rejected "down" : Reply unit) options in
  outcome = (Rejected "down", 1)
  /\ ~ (Z.of_nat outcome.2 ≤ default 10 (retries options) + 1)%Z.
Proof.
  cbv zeta. split; [reflexivity|].
  intros Hle. vm_compute in Hle. exact (Hle eq_refl).
Qed.

(** ** Endpoint lookup *)

(** A request for a name the directory does not know is answered 404 with
    the name in the message; the key validator and the handler are not
    reached and the store is untouched. *)
Theorem unknown_endpoint_answers_404
    (env : Env) (w : World) (req : Request)
    (handler : AuthenticatedRequest -> Prog Outcome) :
  let lookup := FindByName (endpoint_name req) in
  env _ lookup (trace (record lookup w)) = Resolved None ->
  run env (route handler req) w
  = (Resolved (Responded
       {| status := 404;
          body := JsonMessage "Endpoint not found"
                    ("No endpoint found with name: " ++ endpoint_name req) |}),
     record lookup w).
Proof.
  intros lookup Hnone. subst lookup.
  unfold route, lookupEndpoint. cbn in Hnone |- *.
  rewrite Hnone. reflexivity.
Qed.

Lemma unknown_endpoint_answers_404_witness :
  run healthy (route handle_post (plain_request "nowhere" None)) fresh_world
  = (Resolved (Responded
       {| status := 404;
          body := JsonMessage "Endpoint not found"
                    "No endpoint found with name: nowhere" |}),
     record (FindByName "nowhere") fresh_world).
Proof.
  apply (unknown_endpoint_answers_404 healthy fresh_world
           (plain_request "nowhere" None) handle_post).
  reflexivity.
Defined.

(** When the directory lookup throws, the answer is 500 with a fixed
    message: the thrown value is not in the body, and the handler is not
    reached. *)
Theorem lookup_failure_answers_fixed_500
    (env : Env) (w : World) (req : Request)
    (handler : AuthenticatedRequest -> Prog Outcome) (error : Exn) :
  let lookup := FindByName (endpoint_name req) in
  env _ lookup (trace (record lookup w)) = Rejected error ->
  run env (route handler req) w
  = (Resolved (Responded
       {| status := 500;
          body := JsonMessage "Internal server error"
                    "Failed to lookup endpoint" |}),
     record lookup w).
Proof.
  intros lookup Hfail. subst lookup.
  unfold route, lookupEndpoint. cbn in Hfail |- *.
  rewrite Hfail. reflexivity.
Qed.

Lemma lookup_failure_answers_fixed_500_witness :
  run database_down (route handle_get (plain_request "shared" None))
      fresh_world
  = (Resolved (Responded
       {| status := 500;
          body := JsonMessage "Internal server error"
                    "Failed to lookup endpoint" |}),
     record (FindByName "shared") fresh_world).
Proof.
  apply (lookup_failure_answers_fixed_500 database_down fresh_world
           (plain_request "shared" None) handle_get
           "ECONNREFUSED 127.0.0.1:5432").
  reflexivity.
Defined.

(** ** Where the API key is taken from *)

Lemma substring_all (s : string) :
  String.substring 0 (String.length s) s = s.
Proof. induction s as [|a s IH]; simpl; [reflexivity | rewrite IH; reflexivity]. Qed.

Lemma prefix_empty (s : string) : String.prefix "" s = true.
Proof. destruct s; reflexivity. Qed.

Lemma header_api_key_bearer (req : Request) (token : string) :
  authorization req = Some ("Bearer " ++ token) ->
  header_api_key req = Some token.
Proof.
  intros Hauth. unfold header_api_key. rewrite Hauth. simpl.
  rewrite prefix_empty. simpl. rewrite Nat.sub_0_r, substring_all.
  reflexivity.
Qed.

(** Once the headers gave a non-empty key, the gate is [validated] on it. *)
Lemma header_key_is_validated
    (env : Env) (w : World) (authReq : AuthenticatedRequest) (apiKey : string) :
  enable_api_key_auth (endpoint authReq) = true ->
  header_api_key (request authReq) = Some apiKey ->
  apiKey <> "" ->
  run env (authenticateApiKey authReq) w = validated env authReq apiKey w.
Proof.
  intros Hon Hkey Hne. unfold authenticateApiKey, validated.
  rewrite Hon. simpl negb. cbv iota. cbv zeta.
  rewrite Hkey, (truthy_Some apiKey Hne). cbn [negb andb].
  rewrite (truthy_Some apiKey Hne). cbn.
  case_reply env; [destruct (valid _)|]; reflexivity.
Qed.

(** A non-empty bearer token is the key: the validator is called once, with
    the token, whatever the [X-API-Key] header and the query parameters hold.
    A valid verdict lets the request through with the identity the validator
    returned, an invalid one is answered 401 "Invalid API key", and a
    validator that throws is answered 500 with a fixed message. *)
Theorem bearer_token_takes_precedence
    (env : Env) (w : World) (authReq : AuthenticatedRequest) (token : string) :
  enable_api_key_auth (endpoint authReq) = true ->
  authorization (request authReq) = Some ("Bearer " ++ token) ->
  token <> "" ->
  run env (authenticateApiKey authReq) w = validated env authReq token w.
Proof.
  intros Hon Hauth Hne.
  apply header_key_is_validated; auto using header_api_key_bearer.
Qed.

Lemma bearer_token_takes_precedence_witness :
  run healthy
      (authenticateApiKey
         (authenticated
            (keyed_request (Some "Bearer good") (Some "bad") (Some "worse")
               None)
            secure_endpoint))
      fresh_world
  = validated healthy
      (authenticated
         (keyed_request (Some "Bearer good") (Some "bad") (Some "worse") None)
         secure_endpoint)
      "good" fresh_world.
Proof.
  apply (bearer_token_takes_precedence healthy fresh_world
           (authenticated
              (keyed_request (Some "Bearer good") (Some "bad") (Some "worse")
                 None)
              secure_endpoint) "good");
    first [ reflexivity | discriminate ].
Defined.

(** Without a bearer token in [Authorization], a non-empty [X-API-Key]
    header is the key, whatever the query parameters hold. *)
Theorem x_api_key_used_without_bearer
    (env : Env) (w : World) (authReq : AuthenticatedRequest) (apiKey : string) :
  enable_api_key_auth (endpoint authReq) = true ->
  match authorization (request authReq) with
  | Some authHeader => String.prefix "Bearer " authHeader = false
  | None => True
  end ->
  x_api_key (request authReq) = Some apiKey ->
  apiKey <> "" ->
  run env (authenticateApiKey authReq) w = validated env authReq apiKey w.
Proof.
  intros Hon Hbearer Hkey Hne.
  apply header_key_is_validated; auto.
  unfold header_api_key. destruct (authorization (request authReq)) as [h|].
  - rewrite Hbearer, andb_false_r. exact Hkey.
  - exact Hkey.
Qed.

Lemma x_api_key_used_without_bearer_witness :
  run healthy
      (authenticateApiKey
         (authenticated
            (keyed_request (Some "Basic dXNlcjpwYXNz") (Some "good") None
               (Some "bad"))
            secure_endpoint))
      fresh_world
  = validated healthy
      (authenticated
         (keyed_request (Some "Basic dXNlcjpwYXNz") (Some "good") None
            (Some "bad"))
         secure_endpoint)
      "good" fresh_world.
Proof.
  apply (x_api_key_used_without_bearer healthy fresh_world
           (authenticated
              (keyed_request (Some "Basic dXNlcjpwYXNz") (Some "good") None
                 (Some "bad"))
              secure_endpoint) "good");
    first [ reflexivity | discriminate ].
Defined.

(** On an endpoint with query-parameter authentication, a request whose
    headers give no key is validated on its [api_key] query parameter, and
    on [apikey] only when [api_key] is absent or empty. *)
Theorem query_key_used_when_allowed
    (env : Env) (w : World) (authReq : AuthenticatedRequest) (apiKey : string) :
  enable_api_key_auth (endpoint authReq) = true ->
  use_query_param_auth (endpoint authReq) = true ->
  truthy (header_api_key (request authReq)) = false ->
  js_or (query_api_key (request authReq)) (query_apikey (request authReq))
    = Some apiKey ->
  apiKey <> "" ->
  run env (authenticateApiKey authReq) w = validated env authReq apiKey w.
Proof.
  intros Hon Hquery Hnone Hkey Hne. unfold authenticateApiKey, validated.
  rewrite Hon, Hquery. simpl negb. cbv iota. cbv zeta.
  rewrite Hnone. simpl. rewrite Hkey, (truthy_Some apiKey Hne). cbn.
  case_reply env; [destruct (valid _)|]; reflexivity.
Qed.

Lemma query_key_used_when_allowed_witness :
  run healthy
      (authenticateApiKey
         (authenticated (keyed_request None None (Some "") (Some "good"))
            query_endpoint))
      fresh_world
  = validated healthy
      (authenticated (keyed_request None None (Some "") (Some "good"))
         query_endpoint)
      "good" fresh_world.
Proof.
  apply (query_key_used_when_allowed healthy fresh_world
           (authenticated (keyed_request None None (Some "") (Some "good"))
              query_endpoint) "good");
    first [ reflexivity | discriminate ].
Defined.

(** ** Requests that name no session *)

(** GET and POST for a session id that [transports] does not hold (for GET
    also when the header is absent) are answered 404; nothing is called and
    nothing changes. *)
Theorem unknown_session_answers_404
    (env : Env) (w : World) (authReq : AuthenticatedRequest) :
  let sessionId := property_key (mcp_session_id (request authReq)) in
  js_get (transports (store w)) sessionId = Missing ->
  run env (handle_get authReq) w
    = (Resolved (Responded
         {| status := 404; body := Text "Session not found" |}), w)
  /\ (truthy (mcp_session_id (request authReq)) = true ->
      run env (handle_post authReq) w
      = (Resolved (Responded
           {| status := 404;
              body := Text ("Transport not found for sessionId "
                            ++ sessionId) |}), w)).
Proof.
  intros sessionId Hmissing. subst sessionId. split.
  - unfold handle_get. cbn. rewrite Hmissing. reflexivity.
  - intros Htruthy. unfold handle_post. rewrite Htruthy.
    destruct (mcp_session_id (request authReq)) as [sid|]; [|discriminate].
    unfold continue_session. cbn in Hmissing |- *. rewrite Hmissing.
    reflexivity.
Qed.

Lemma unknown_session_answers_404_witness :
  let authReq :=
    authenticated (plain_request "shared" (Some stale_session))
      open_endpoint in
  run healthy (handle_get authReq) one_session
    = (Resolved (Responded
         {| status := 404; body := Text "Session not found" |}), one_session)
  /\ (truthy (mcp_session_id (request authReq)) = true ->
      run healthy (handle_post authReq) one_session
      = (Resolved (Responded
           {| status := 404;
              body := Text ("Transport not found for sessionId "
                            ++ stale_session) |}), one_session)).
Proof.
  intros authReq.
  apply (unknown_session_answers_404 healthy one_session authReq).
  vm_compute. reflexivity.
Defined.

(** An empty [mcp-session-id] header counts as no header: POST begins a new
    session, and DELETE is answered 400 without any cleanup. *)
Theorem empty_session_id_counts_as_absent
    (env : Env) (w : World) (authReq : AuthenticatedRequest) :
  mcp_session_id (request authReq) = None
  \/ mcp_session_id (request authReq) = Some "" ->
  run env (handle_post authReq) w = run env (begin_session authReq) w
  /\ run env (handle_delete authReq) w
     = (Resolved (Responded
          {| status := 400; body := Text "Missing sessionId" |}), w).
Proof.
  intros [Hsid|Hsid]; unfold handle_post, handle_delete; rewrite Hsid;
    split; reflexivity.
Qed.

Lemma empty_session_id_counts_as_absent_witness :
  let authReq :=
    authenticated (plain_request "shared" (Some "")) open_endpoint in
  run healthy (handle_post authReq) one_session
    = run healthy (begin_session authReq) one_session
  /\ run healthy (handle_delete authReq) one_session
     = (Resolved (Responded
          {| status := 400; body := Text "Missing sessionId" |}), one_session).
Proof.
  intros authReq.
  apply (empty_session_id_counts_as_absent healthy one_session authReq).
  right. reflexivity.
Defined.

(** GET, and POST for an existing session, never change the three records,
    whatever the session's transport does with the request. *)
Theorem dispatch_leaves_store_unchanged
    (env : Env) (w : World) (authReq : AuthenticatedRequest) (sid : string) :
  store (run env (handle_get authReq) w).2 = store w
  /\ store (run env (continue_session sid authReq) w).2 = store w.
Proof.
  split; [unfold handle_get | unfold continue_session]; cbn;
    destruct (js_get (transports (store w)) _); cbn;
    try case_reply env; reflexivity.
Qed.

(** A live session can be reached through any endpoint that has API-key
    authentication off: a POST that names the session is dispatched to the
    session's transport whatever endpoint the URL names, with no credential
    asked. *)
Theorem session_reachable_through_open_endpoint
    (env : Env) (w : World) (req : Request) (ep : Endpoint)
    (sid : string) (t : TransportId) :
  let lookup := FindByName (endpoint_name req) in
  env _ lookup (trace (record lookup w)) = Resolved (Some ep) ->
  enable_api_key_auth ep = false ->
  mcp_session_id req = Some sid ->
  sid <> "" ->
  transports (store w) !! sid = Some t ->
  calls_of (issued_after (length (trace w)) (run env (POST req) w).2)
  = [ Any lookup; Any (HandleRequest t req) ].
Proof.
  intros lookup Hfound Hoff Hsid Hne Hreg. subst lookup.
  unfold POST, route, lookupEndpoint. cbn in Hfound |- *. rewrite Hfound.
  cbn. unfold authenticateApiKey. cbn. rewrite Hoff. cbn.
  unfold handle_post. cbn. rewrite Hsid, (truthy_Some sid Hne). cbn.
  unfold continue_session. cbn. rewrite (js_get_Some _ _ _ Hreg). cbn.
  case_reply env;
    unfold calls_of, issued_after, record; cbn [trace store];
    rewrite <- ?app_assoc, drop_app_length; reflexivity.
Qed.

Lemma session_reachable_through_open_endpoint_witness :
  let req := plain_request "weather" (Some (uuid_of 1)) in
  calls_of (issued_after (length (trace one_session))
              (run healthy (POST req) one_session).2)
  = [ Any (FindByName "weather"); Any (HandleRequest 101 req) ].
Proof.
  intros req.
  apply (session_reachable_through_open_endpoint healthy one_session req
           open_endpoint (uuid_of 1) 101);
    first [ reflexivity | discriminate ].
Defined.

(** ** What ending a live session does *)

Ltac new_calls :=
  unfold calls_of, issued_after, record; cbn [trace store];
  rewrite <- ?app_assoc, drop_app_length.

(** Ending a session of an endpoint that counts two or more: the transport
    is removed and closed, the per-session hook runs, the count goes down by
    one, and the server stays cached and is not torn down. *)
Theorem end_session_keeps_shared_server
    (env : Env) (w : World) (authReq : AuthenticatedRequest)
    (sid : string) (t : TransportId) (n : Z) :
  let e := endpointName authReq in
  mcp_session_id (request authReq) = Some sid ->
  sid <> "" ->
  transports (store w) !! sid = Some t ->
  endpointSessionCounts (store w) !! e = Some n ->
  (2 ≤ n)%Z ->
  (forall tr, env _ (TransportClose t) tr = Resolved tt) ->
  (forall tr, env _ (CleanupSessionConnections sid) tr = Resolved tt) ->
  let '(reply, w') := run env (handle_delete authReq) w in
  reply = Resolved (Responded {| status := 200; body := NoBody |})
  /\ transports (store w') = delete sid (transports (store w))
  /\ endpointSessionCounts (store w')
     = <[e := (n - 1)%Z]> (endpointSessionCounts (store w))
  /\ metamcpServers (store w') = metamcpServers (store w)
  /\ calls_of (issued_after (length (trace w)) w')
     = [ Any (TransportClose t); Any (CleanupSessionConnections sid) ].
Proof.
  intros e Hsid Hne Hreg Hcount Hshared Hclose Hhook. subst e.
  unfold handle_delete. rewrite Hsid, (truthy_Some sid Hne).
  unfold cleanupSession, cleanupEndpointIfUnused. cbn.
  rewrite (js_get_Some _ _ _ Hreg). cbn. rewrite Hclose. cbn.
  rewrite Hcount. cbn. rewrite bool_decide_eq_true_2 by lia. cbn.
  rewrite Hhook. cbn. rewrite lookup_alter_eq, Hcount. cbn.
  rewrite bool_decide_eq_false_2 by lia. cbn.
  repeat split.
  - apply map_eq. intros e'.
    destruct (decide (endpointName authReq = e')) as [<-|Hne'].
    + rewrite lookup_alter_eq, lookup_insert_eq, Hcount. reflexivity.
    + rewrite lookup_alter_ne, lookup_insert_ne by exact Hne'. reflexivity.
  - new_calls. reflexivity.
Qed.

Lemma end_session_keeps_shared_server_witness :
  let authReq :=
    authenticated (plain_request "shared" (Some (uuid_of 1))) open_endpoint in
  let '(reply, w') := run healthy (handle_delete authReq) two_sessions in
  reply = Resolved (Responded {| status := 200; body := NoBody |})
  /\ transports (store w') = delete (uuid_of 1) (transports (store two_sessions))
  /\ endpointSessionCounts (store w')
     = <["shared" := (2 - 1)%Z]> (endpointSessionCounts (store two_sessions))
  /\ metamcpServers (store w') = metamcpServers (store two_sessions)
  /\ calls_of (issued_after (length (trace two_sessions)) w')
     = [ Any (TransportClose 101);
         Any (CleanupSessionConnections (uuid_of 1)) ].
Proof.
  intros authReq.
  apply (end_session_keeps_shared_server healthy two_sessions authReq
           (uuid_of 1) 101 2);
    first [ reflexivity | discriminate | lia | intros; reflexivity ].
Defined.

(** Ending the last session of an endpoint (its count is one): after the
    transport and the per-session hook, the server's [cleanup] is called
    once, and the endpoint's server and count entries are deleted. *)
Theorem end_last_session_tears_down
    (env : Env) (w : World) (authReq : AuthenticatedRequest)
    (sid : string) (t : TransportId) (srv : ServerId) :
  let e := endpointName authReq in
  mcp_session_id (request authReq) = Some sid ->
  sid <> "" ->
  transports (store w) !! sid = Some t ->
  endpointSessionCounts (store w) !! e = Some 1%Z ->
  metamcpServers (store w) !! e = Some srv ->
  (forall tr, env _ (TransportClose t) tr = Resolved tt) ->
  (forall tr, env _ (CleanupSessionConnections sid) tr = Resolved tt) ->
  (forall tr, env _ (ServerCleanup srv) tr = Resolved tt) ->
  let '(reply, w') := run env (handle_delete authReq) w in
  reply = Resolved (Responded {| status := 200; body := NoBody |})
  /\ transports (store w') = delete sid (transports (store w))
  /\ endpointSessionCounts (store w')
     = delete e (endpointSessionCounts (store w))
  /\ metamcpServers (store w') = delete e (metamcpServers (store w))
  /\ calls_of (issued_after (length (trace w)) w')
     = [ Any (TransportClose t); Any (CleanupSessionConnections sid);
         Any (ServerCleanup srv) ].
Proof.
  intros e Hsid Hne Hreg Hcount Hcache Hclose Hhook Hteardown. subst e.
  unfold handle_delete. rewrite Hsid, (truthy_Some sid Hne).
  unfold cleanupSession, cleanupEndpointIfUnused. cbn.
  rewrite (js_get_Some _ _ _ Hreg). cbn. rewrite Hclose. cbn.
  rewrite Hcount. cbn. rewrite bool_decide_eq_true_2 by lia. cbn.
  rewrite Hhook. cbn. rewrite lookup_alter_eq, Hcount. cbn.
  rewrite bool_decide_eq_true_2 by lia. rewrite Hcache. cbn.
  rewrite Hteardown. cbn.
  repeat split.
  - apply delete_alter_eq.
  - new_calls. reflexivity.
Qed.

Lemma end_last_session_tears_down_witness :
  let authReq :=
    authenticated (plain_request "shared" (Some (uuid_of 1))) open_endpoint in
  let '(reply, w') := run healthy (handle_delete authReq) one_session in
  reply = Resolved (Responded {| status := 200; body := NoBody |})
  /\ transports (store w') = delete (uuid_of 1) (transports (store one_session))
  /\ endpointSessionCounts (store w')
     = delete "shared" (endpointSessionCounts (store one_session))
  /\ metamcpServers (store w')
     = delete "shared" (metamcpServers (store one_session))
  /\ calls_of (issued_after (length (trace one_session)) w')
     = [ Any (TransportClose 101);
         Any (CleanupSessionConnections (uuid_of 1));
         Any (ServerCleanup 1) ].
Proof.
  intros authReq.
  apply (end_last_session_tears_down healthy one_session authReq
           (uuid_of 1) 101 1);
    first [ reflexivity | discriminate | intros; reflexivity ].
Defined.

(** When [transport.close] rejects, the DELETE is answered 500 with the
    thrown value; the transport is already out of [transports], but the
    endpoint's count is not decremented, and neither the per-session hook
    nor the server teardown is called. *)
Theorem failed_close_skips_release
    (env : Env) (w : World) (authReq : AuthenticatedRequest)
    (sid : string) (t : TransportId) (error : Exn) :
  mcp_session_id (request authReq) = Some sid ->
  sid <> "" ->
  transports (store w) !! sid = Some t ->
  (forall tr, env _ (TransportClose t) tr = Rejected error) ->
  let '(reply, w') := run env (handle_delete authReq) w in
  reply = Resolved (Responded {| status := 500; body := JsonOf error |})
  /\ transports (store w') = delete sid (transports (store w))
  /\ endpointSessionCounts (store w') = endpointSessionCounts (store w)
  /\ metamcpServers (store w') = metamcpServers (store w)
  /\ calls_of (issued_after (length (trace w)) w')
     = [ Any (TransportClose t) ].
Proof.
  intros Hsid Hne Hreg Hclose.
  unfold handle_delete. rewrite Hsid, (truthy_Some sid Hne).
  unfold cleanupSession, cleanupEndpointIfUnused. cbn.
  rewrite (js_get_Some _ _ _ Hreg). cbn. rewrite Hclose. cbn.
  repeat split. new_calls. reflexivity.
Qed.

Lemma failed_close_skips_release_witness :
  let authReq :=
    authenticated (plain_request "shared" (Some (uuid_of 1))) open_endpoint in
  let '(reply, w') := run close_fails (handle_delete authReq) one_session in
  reply = Resolved (Responded {| status := 500; body := JsonOf "write EPIPE" |})
  /\ transports (store w') = delete (uuid_of 1) (transports (store one_session))
  /\ endpointSessionCounts (store w') = endpointSessionCounts (store one_session)
  /\ metamcpServers (store w') = metamcpServers (store one_session)
  /\ calls_of (issued_after (length (trace one_session)) w')
     = [ Any (TransportClose 101) ].
Proof.
  intros authReq.
  apply (failed_close_skips_release close_fails one_session authReq
           (uuid_of 1) 101 "write EPIPE");
    first [ reflexivity | discriminate | intros; reflexivity ].
Defined.

(** When the server's [cleanup] rejects while the last session is ended, the
    DELETE is answered 500 with the thrown value and the server is not
    evicted: it stays cached, with a count of zero, for the next session. *)
Theorem failed_teardown_keeps_server_cached
    (env : Env) (w : World) (authReq : AuthenticatedRequest)
    (sid : string) (t : TransportId) (srv : ServerId) (error : Exn) :
  let e := endpointName authReq in
  mcp_session_id (request authReq) = Some sid ->
  sid <> "" ->
  transports (store w) !! sid = Some t ->
  endpointSessionCounts (store w) !! e = Some 1%Z ->
  metamcpServers (store w) !! e = Some srv ->
  (forall tr, env _ (TransportClose t) tr = Resolved tt) ->
  (forall tr, env _ (CleanupSessionConnections sid) tr = Resolved tt) ->
  (forall tr, env _ (ServerCleanup srv) tr = Rejected error) ->
  let '(reply, w') := run env (handle_delete authReq) w in
  reply = Resolved (Responded {| status := 500; body := JsonOf error |})
  /\ metamcpServers (store w') !! e = Some srv
  /\ endpointSessionCounts (store w') !! e = Some 0%Z.
Proof.
  intros e Hsid Hne Hreg Hcount Hcache Hclose Hhook Hteardown. subst e.
  unfold handle_delete. rewrite Hsid, (truthy_Some sid Hne).
  unfold cleanupSession, cleanupEndpointIfUnused. cbn.
  rewrite (js_get_Some _ _ _ Hreg). cbn. rewrite Hclose. cbn.
  rewrite Hcount. cbn. rewrite bool_decide_eq_true_2 by lia. cbn.
  rewrite Hhook. cbn. rewrite lookup_alter_eq, Hcount. cbn.
  rewrite bool_decide_eq_true_2 by lia. rewrite Hcache. cbn.
  rewrite Hteardown. cbn.
  repeat split; [exact Hcache|].
  rewrite lookup_alter_eq, Hcount. reflexivity.
Qed.

Lemma failed_teardown_keeps_server_cached_witness :
  let authReq :=
    authenticated (plain_request "shared" (Some (uuid_of 1))) open_endpoint in
  let '(reply, w') := run teardown_fails (handle_delete authReq) one_session in
  reply = Resolved (Responded {| status := 500; body := JsonOf "kill ESRCH" |})
  /\ metamcpServers (store w') !! "shared" = Some 1%nat
  /\ endpointSessionCounts (store w') !! "shared" = Some 0%Z.
Proof.
  intros authReq.
  apply (failed_teardown_keeps_server_cached teardown_fails one_session authReq
           (uuid_of 1) 101 1 "kill ESRCH");
    first [ reflexivity | discriminate | intros; reflexivity ].
Defined.

(** ** A session from its first POST to its DELETE *)

(** A first POST for an endpoint that has no server and no count, and whose
    name is no member name of [Object.prototype], followed by the DELETE of
    the session it began, all collaborators working: the server is created,
    connected and torn down once each, and the three records end up exactly
    as they were before the POST. *)
Theorem begin_then_end_restores_store
    (env : Env) (w : World) (authReq authReq' : AuthenticatedRequest)
    (sid : string) (srv : ServerId) (t : TransportId) :
  let e := endpointName authReq in
  let req := request authReq in
  inherited e = false ->
  mcp_session_id req = None ->
  endpointName authReq' = e ->
  mcp_session_id (request authReq') = Some sid ->
  sid <> "" ->
  transports (store w) !! sid = None ->
  metamcpServers (store w) !! e = None ->
  endpointSessionCounts (store w) !! e = None ->
  env _ RandomUUID (trace (record RandomUUID w)) = Resolved sid ->
  (forall tr, env _ (CreateServer (namespaceUuid authReq) sid) tr
              = Resolved srv) ->
  (forall tr, env _ (NewTransport sid) tr = Resolved t) ->
  (forall tr, env _ (ServerConnect srv t) tr = Resolved tt) ->
  (forall tr, env _ (HandleRequest t req) tr = Resolved tt) ->
  (forall tr, env _ (TransportClose t) tr = Resolved tt) ->
  (forall tr, env _ (CleanupSessionConnections sid) tr = Resolved tt) ->
  (forall tr, env _ (ServerCleanup srv) tr = Resolved tt) ->
  let '(begun, w1) := run env (handle_post authReq) w in
  let '(ended, w2) := run env (handle_delete authReq') w1 in
  begun = Resolved (Forwarded t)
  /\ ended = Resolved (Responded {| status := 200; body := NoBody |})
  /\ store w2 = store w
  /\ calls_of (issued_after (length (trace w)) w2)
     = [ Any RandomUUID;
         Any (CreateServer (namespaceUuid authReq) sid);
         Any (NewTransport sid);
         Any (ServerConnect srv t);
         Any (HandleRequest t req);
         Any (TransportClose t);
         Any (CleanupSessionConnections sid);
         Any (ServerCleanup srv) ].
Proof.
  intros e req Hplain Hnone He Hsid Hne Hfree Hnocache Hnocount Huuid Hcreate Hnew
    Hconnect Hdispatch Hclose Hhook Hteardown. subst e req.
  destruct w as [[ts ms cs] tr]. cbn in Hfree, Hnocache, Hnocount, Huuid.
  unfold handle_post, handle_delete. rewrite Hnone, Hsid, He.
  rewrite (truthy_Some sid Hne). cbn [truthy negb].
  unfold begin_session, cleanupSession, cleanupEndpointIfUnused. cbn.
  rewrite Huuid. cbn. rewrite Hnocache. cbn. rewrite Hcreate. cbn.
  rewrite Hnew. cbn. rewrite Hconnect. cbn. rewrite Hdispatch. cbn.
  unfold js_get. rewrite lookup_insert_eq. cbn. rewrite Hclose. cbn.
  rewrite Hnocount, !lookup_insert_eq. cbn.
  rewrite bool_decide_eq_true_2 by lia. cbn.
  rewrite Hhook. cbn. rewrite lookup_alter_eq, !lookup_insert_eq. cbn.
  rewrite bool_decide_eq_true_2 by lia. cbn.
  rewrite Hteardown. cbn.
  repeat split.
  - unfold set_transports, set_metamcpServers, set_endpointSessionCounts.
    cbn. f_equal.
    + apply delete_insert_id, Hfree.
    + apply delete_insert_id, Hnocache.
    + rewrite delete_alter_eq. apply delete_insert_id, Hnocount.
  - new_calls. reflexivity.
Qed.

Lemma begin_then_end_restores_store_witness :
  let begin := authenticated (plain_request "weather" None) open_endpoint in
  let finish :=
    authenticated (plain_request "weather" (Some (uuid_of 1))) open_endpoint in
  let '(begun, w1) := run steady (handle_post begin) fresh_world in
  let '(ended, w2) := run steady (handle_delete finish) w1 in
  begun = Resolved (Forwarded 101)
  /\ ended = Resolved (Responded {| status := 200; body := NoBody |})
  /\ store w2 = store fresh_world
  /\ calls_of (issued_after (length (trace fresh_world)) w2)
     = [ Any RandomUUID;
         Any (CreateServer "ns-1" (uuid_of 1));
         Any (NewTransport (uuid_of 1));
         Any (ServerConnect 1 101);
         Any (HandleRequest 101 (plain_request "weather" None));
         Any (TransportClose 101);
         Any (CleanupSessionConnections (uuid_of 1));
         Any (ServerCleanup 1) ].
Proof.
  intros begin finish.
  apply (begin_then_end_restores_store steady fresh_world begin finish
           (uuid_of 1) 1 101);
    first [ reflexivity | discriminate | intros; reflexivity ].
Defined.

(** ** What a request leaves alone *)

Ltac other_entries :=
  cbn;
  rewrite ?lookup_insert_ne, ?lookup_delete_ne, ?lookup_alter_ne by done;
  auto.

(** A first POST changes nothing but the server and count entries of its own
    endpoint and the transport entry of the session id it drew, whatever its
    collaborators do. *)
Theorem begin_touches_only_its_own_entries
    (env : Env) (w : World) (authReq : AuthenticatedRequest)
    (sid sid' e' : string) :
  env _ RandomUUID (trace (record RandomUUID w)) = Resolved sid ->
  e' <> endpointName authReq ->
  sid' <> sid ->
  let w' := (run env (begin_session authReq) w).2 in
  metamcpServers (store w') !! e' = metamcpServers (store w) !! e'
  /\ endpointSessionCounts (store w') !! e'
     = endpointSessionCounts (store w) !! e'
  /\ transports (store w') !! sid' = transports (store w) !! sid'.
Proof.
  intros Huuid He Hsid. unfold begin_session. cbn in Huuid |- *.
  rewrite Huuid. cbn.
  destruct (metamcpServers (store w) !! endpointName authReq); cbn;
    repeat case_reply env; repeat split; other_entries.
Qed.

Lemma begin_touches_only_its_own_entries_witness :
  let authReq := authenticated (plain_request "weather" None) open_endpoint in
  let w' := (run healthy (begin_session authReq) one_session).2 in
  metamcpServers (store w') !! "shared"
    = metamcpServers (store one_session) !! "shared"
  /\ endpointSessionCounts (store w') !! "shared"
     = endpointSessionCounts (store one_session) !! "shared"
  /\ transports (store w') !! uuid_of 1
     = transports (store one_session) !! uuid_of 1.
Proof.
  intros authReq.
  apply (begin_touches_only_its_own_entries healthy one_session authReq
           (uuid_of 2) (uuid_of 1) "shared");
    first [ reflexivity | discriminate ].
Defined.

(** A DELETE changes nothing but the transport entry of the session id it
    carries and the server and count entries of the endpoint in its URL,
    whatever its collaborators do. *)
Theorem end_touches_only_its_own_entries
    (env : Env) (w : World) (authReq : AuthenticatedRequest)
    (sid sid' e' : string) :
  mcp_session_id (request authReq) = Some sid ->
  e' <> endpointName authReq ->
  sid' <> sid ->
  let w' := (run env (handle_delete authReq) w).2 in
  metamcpServers (store w') !! e' = metamcpServers (store w) !! e'
  /\ endpointSessionCounts (store w') !! e'
     = endpointSessionCounts (store w) !! e'
  /\ transports (store w') !! sid' = transports (store w) !! sid'.
Proof.
  intros Hsid He Hne. unfold handle_delete. rewrite Hsid.
  destruct (truthy (Some sid)); [|cbn; auto].
  unfold cleanupSession, cleanupEndpointIfUnused. cbn.
  destruct (js_get (transports (store w)) sid); cbn;
    [case_reply env| |];
    try (repeat split; other_entries; fail);
    (destruct (bool_decide (0 < default 0 _)%Z); cbn;
     case_reply env; try (repeat split; other_entries; fail);
     (destruct (bool_decide (default 0 _ ≤ 0)%Z); cbn;
      try (repeat split; other_entries; fail);
      destruct (metamcpServers (store w) !! endpointName authReq); cbn;
      try (repeat split; other_entries; fail);
      case_reply env; repeat split; other_entries)).
Qed.

Lemma end_touches_only_its_own_entries_witness :
  let authReq :=
    authenticated (plain_request "weather" (Some (uuid_of 1))) open_endpoint in
  let w' := (run healthy (handle_delete authReq) two_sessions).2 in
  metamcpServers (store w') !! "shared"
    = metamcpServers (store two_sessions) !! "shared"
  /\ endpointSessionCounts (store w') !! "shared"
     = endpointSessionCounts (store two_sessions) !! "shared"
  /\ transports (store w') !! uuid_of 2
     = transports (store two_sessions) !! uuid_of 2.
Proof.
  intros authReq.
  apply (end_touches_only_its_own_entries healthy two_sessions authReq
           (uuid_of 1) (uuid_of 2) "shared");
    first [ reflexivity | discriminate ].
Defined.

(** ** What a first POST does to the cache and the count *)

(** A first POST that is answered through a transport has bound the session:
    the transport is stored under the session id, the endpoint counts one
    session more, and the one [server.connect] call was made on the server
    that is cached for the endpoint afterwards. *)
Theorem successful_begin_binds_session
    (env : Env) (w w' : World) (authReq : AuthenticatedRequest)
    (sid : string) (t : TransportId) :
  let e := endpointName authReq in
  env _ RandomUUID (trace (record RandomUUID w)) = Resolved sid ->
  run env (begin_session authReq) w = (Resolved (Forwarded t), w') ->
  transports (store w') = <[sid := t]> (transports (store w))
  /\ endpointSessionCounts (store w')
     = <[e := (default 0 (endpointSessionCounts (store w) !! e) + 1)%Z]>
         (endpointSessionCounts (store w))
  /\ exists srv,
       metamcpServers (store w') !! e = Some srv
       /\ connections (issued_after (length (trace w)) w') = [ (srv, t) ].
Proof.
  intros e Huuid Hrun. subst e. unfold begin_session in Hrun.
  cbn in Hrun, Huuid. rewrite Huuid in Hrun. cbn in Hrun.
  destruct (metamcpServers (store w) !! endpointName authReq) eqn:Hcache;
    cbn in Hrun; repeat case_reply_in env Hrun;
    inversion Hrun; subst; clear Hrun; cbn;
    (split; [reflexivity|]); (split; [reflexivity|]);
    eexists; (split; [first [exact Hcache | apply lookup_insert_eq]|]);
    unfold issued_after, record; cbn [trace store];
    rewrite <- ?app_assoc, drop_app_length; reflexivity.
Qed.

Lemma successful_begin_binds_session_witness :
  let authReq := authenticated (plain_request "shared" None) open_endpoint in
  let w' := (run healthy (begin_session authReq) one_session).2 in
  transports (store w')
    = <[uuid_of 2 := 102%nat]> (transports (store one_session))
  /\ endpointSessionCounts (store w')
     = <["shared" :=
           (default 0 (endpointSessionCounts (store one_session) !! "shared")
            + 1)%Z]>
         (endpointSessionCounts (store one_session))
  /\ exists srv,
       metamcpServers (store w') !! "shared" = Some srv
       /\ connections (issued_after (length (trace one_session)) w')
          = [ (srv, 102%nat) ].
Proof.
  intros authReq w'.
  apply (successful_begin_binds_session healthy one_session w' authReq
           (uuid_of 2) 102%nat); reflexivity.
Defined.

(** A first POST for an endpoint without a cached server, and whose name is
    no member name of [Object.prototype], calls [createServer] exactly once,
    with the endpoint's namespace and the new session id; the server it
    resolves to is cached under the endpoint name even if a later step of
    the POST fails. *)
Theorem uncached_begin_creates_and_caches
    (env : Env) (w : World) (authReq : AuthenticatedRequest)
    (sid : string) (srv : ServerId) :
  let e := endpointName authReq in
  let create := CreateServer (namespaceUuid authReq) sid in
  inherited e = false ->
  metamcpServers (store w) !! e = None ->
  env _ RandomUUID (trace (record RandomUUID w)) = Resolved sid ->
  (forall tr, env _ create tr = Resolved srv) ->
  let w' := (run env (begin_session authReq) w).2 in
  count_calls is_CreateServer (issued_after (length (trace w)) w') = 1%nat
  /\ calls_of (issued_after (length (trace w)) w') !! 1%nat = Some (Any create)
  /\ metamcpServers (store w') !! e = Some srv.
Proof.
  intros e create Hplain Hcache Huuid Hcreate. subst e create.
  unfold begin_session. cbn in Huuid |- *. rewrite Huuid. cbn.
  rewrite Hcache. cbn. rewrite Hcreate. cbn.
  repeat case_reply env;
    unfold calls_of, issued_after, record; cbn [trace store];
    rewrite <- ?app_assoc, drop_app_length; cbn;
    repeat split; apply lookup_insert_eq.
Qed.

Lemma uncached_begin_creates_and_caches_witness :
  let authReq := authenticated (plain_request "weather" None) open_endpoint in
  let w' := (run connect_fails (begin_session authReq) one_session).2 in
  count_calls is_CreateServer (issued_after (length (trace one_session)) w')
    = 1%nat
  /\ calls_of (issued_after (length (trace one_session)) w') !! 1%nat
     = Some (Any (CreateServer "ns-1" (uuid_of 2)))
  /\ metamcpServers (store w') !! "weather" = Some 2%nat.
Proof.
  intros authReq.
  apply (uncached_begin_creates_and_caches connect_fails one_session authReq
           (uuid_of 2) 2%nat);
    first [ reflexivity | intros; reflexivity ].
Defined.

(** ** More retries never lose a result *)

Lemma attempts_more {T : Type} (query : nat -> Reply T)
    (n m calls made : nat) (v : T) :
  (n ≤ m)%nat ->
  attempts query n calls = (Resolved v, made) ->
  attempts query m calls = (Resolved v, made).
Proof.
  revert m calls. induction n as [|n IH]; intros m calls Hle Hn.
  - destruct m; simpl in *; destruct (query calls);
      first [ exact Hn | discriminate ].
  - destruct m as [|m]; [lia|]. simpl in *.
    destruct (query calls); [exact Hn|]. apply IH; [lia | exact Hn].
Qed.

(** If [retryDbQuery] returns a value with some number of retries, it
    returns the same value after the same number of invocations with any
    larger number of retries. *)
Theorem retryDbQuery_more_retries_same_value {T : Type}
    (query : nat -> Reply T) (r r' delay delay' : option Z)
    (v : T) (made : nat) :
  (default 10 r ≤ default 10 r')%Z ->
  retryDbQuery query {| retries := r; delayMs := delay |}
    = (Resolved v, made) ->
  retryDbQuery query {| retries := r'; delayMs := delay' |}
    = (Resolved v, made).
Proof.
  unfold retryDbQuery. cbn [retries]. rewrite !retry_loop_attempts.
  intros Hle Hr. eapply attempts_more; [|exact Hr]. lia.
Qed.

Lemma retryDbQuery_more_retries_same_value_witness :
  retryDbQuery flaky {| retries := Some 5%Z; delayMs := Some 0%Z |}
  = (Resolved "rows", 3%nat).
Proof.
  apply (retryDbQuery_more_retries_same_value flaky (Some 2%Z) (Some 5%Z)
           None (Some 0%Z) "rows" 3%nat).
  - simpl. lia.
  - reflexivity.
Defined.

(** ** The tool-execution-log route *)

Lemma retryDbQuery_invoked {T : Type} (query : nat -> Reply T)
    (options : RetryOptions) :
  (1 ≤ (retryDbQuery query options).2)%nat.
Proof.
  unfold retryDbQuery. rewrite retry_loop_attempts.
  pose proof (attempts_calls query
                (Z.to_nat (default 10%Z (retries options) - 0)) 0).
  lia.
Qed.

(** The route invokes each of its two queries at most 11 times, and it
    invokes the insert only for a caller the API-key check let through, with
    a truthy [tool_name], and, if the body names a server, after the select
    found that server among those of the caller's active profile. *)
Theorem tool_log_database_use
    (PENDING : ToolExecutionLogs.Json) (db : ToolExecutionLogs.Database)
    (auth : Reply ToolExecutionLogs.Auth)
    (json : Reply ToolExecutionLogs.Json) :
  let handled := ToolExecutionLogs.POST PENDING db auth json in
  (ToolExecutionLogs.selects handled ≤ 11)%nat
  /\ (ToolExecutionLogs.inserts handled ≤ 11)%nat
  /\ ((0 < ToolExecutionLogs.inserts handled)%nat ->
      exists profile body f,
        auth = Resolved (ToolExecutionLogs.Granted profile)
        /\ json = Resolved body
        /\ ToolExecutionLogs.destructure body = Resolved f
        /\ ToolExecutionLogs.truthy (ToolExecutionLogs.tool_name f) = true
        /\ (ToolExecutionLogs.truthy (ToolExecutionLogs.mcp_server_uuid f)
              = false
            \/ exists uuid row rows n,
                 ToolExecutionLogs.mcp_server_uuid f = Some uuid
                 /\ retryDbQuery
                      (ToolExecutionLogs.select_server db uuid profile)
                      no_options
                    = (Resolved (row :: rows), n))).
Proof.
  intros handled. subst handled. unfold ToolExecutionLogs.POST.
  destruct auth as [[error|profile]|error]; try (cbn; repeat split; lia).
  destruct json as [body|error]; try (cbn; repeat split; lia).
  cbv beta iota.
  destruct (ToolExecutionLogs.destructure body) as [f|error] eqn:Hf;
    try (cbn; repeat split; lia).
  destruct (ToolExecutionLogs.truthy (ToolExecutionLogs.tool_name f))
    eqn:Hname; try (cbn; repeat split; lia).
  cbv beta iota zeta. simpl negb. cbv iota.
  pose proof (retryDbQuery_default_bound
                (ToolExecutionLogs.insert_log db
                   (ToolExecutionLogs.log_values PENDING f))) as Hinsert.
  assert (Hplain :
    forall k,
      (k ≤ 11)%nat ->
      (ToolExecutionLogs.truthy (ToolExecutionLogs.mcp_server_uuid f) = false
       \/ exists uuid row rows n,
            ToolExecutionLogs.mcp_server_uuid f = Some uuid
            /\ retryDbQuery (ToolExecutionLogs.select_server db uuid profile)
                 no_options
               = (Resolved (row :: rows), n)) ->
      let handled :=
        match retryDbQuery
                (ToolExecutionLogs.insert_log db
                   (ToolExecutionLogs.log_values PENDING f)) no_options with
        | (Resolved (row :: _), inserts) =>
            {| ToolExecutionLogs.answer := ToolExecutionLogs.Created row;
               ToolExecutionLogs.selects := k;
               ToolExecutionLogs.inserts := inserts |}
        | (Resolved [], inserts) => ToolExecutionLogs.failed k inserts
        | (Rejected _, inserts) => ToolExecutionLogs.failed k inserts
        end in
      (ToolExecutionLogs.selects handled ≤ 11)%nat
      /\ (ToolExecutionLogs.inserts handled ≤ 11)%nat
      /\ ((0 < ToolExecutionLogs.inserts handled)%nat ->
          exists profile' body' f',
            Resolved (ToolExecutionLogs.Granted profile)
            = Resolved (ToolExecutionLogs.Granted profile')
            /\ Resolved body = Resolved body'
            /\ ToolExecutionLogs.destructure body' = Resolved f'
            /\ ToolExecutionLogs.truthy (ToolExecutionLogs.tool_name f')
               = true
            /\ (ToolExecutionLogs.truthy
                  (ToolExecutionLogs.mcp_server_uuid f') = false
                \/ exists uuid row rows n,
                     ToolExecutionLogs.mcp_server_uuid f' = Some uuid
                     /\ retryDbQuery
                          (ToolExecutionLogs.select_server db uuid profile')
                          no_options
                        = (Resolved (row :: rows), n)))).
  { intros k Hk Hserver handled.
    subst handled.
    destruct (retryDbQuery _ no_options) as [[[|row' rows']|error] i];
      cbn in Hinsert |- *;
      (split; [lia|split; [lia|intros _]]);
      exists profile, body, f; repeat split; auto. }
  destruct (ToolExecutionLogs.mcp_server_uuid f) as [uuid|] eqn:Huuid.
  - destruct (ToolExecutionLogs.truthy (Some uuid)) eqn:Htruthy.
    + pose proof (retryDbQuery_default_bound
                    (ToolExecutionLogs.select_server db uuid profile))
        as Hselect.
      destruct (retryDbQuery (ToolExecutionLogs.select_server db uuid profile)
                  no_options) as [[[|row rows]|error] n] eqn:Hrun;
        cbn in Hselect; cbn [length Nat.eqb];
        try (cbn; repeat split; lia).
      apply Hplain; [exact Hselect|].
      right. exists uuid, row, rows, n. split; [reflexivity | exact Hrun].
    + apply Hplain; [lia | left; reflexivity].
  - apply Hplain; [lia | left; reflexivity].
Qed.

Lemma or_else_same_or_falsy (v v' : ToolExecutionLogs.Value)
    (d : ToolExecutionLogs.Json) :
  same_or_falsy v v' ->
  ToolExecutionLogs.or_else v d = ToolExecutionLogs.or_else v' d.
Proof.
  intros [->|[Hv Hv']]; [reflexivity|].
  unfold ToolExecutionLogs.or_else. rewrite Hv, Hv'.
  destruct v, v'; reflexivity.
Qed.

Lemma truthy_same_or_falsy (v v' : ToolExecutionLogs.Value) :
  same_or_falsy v v' ->
  ToolExecutionLogs.truthy v = ToolExecutionLogs.truthy v'.
Proof. intros [->|[-> ->]]; reflexivity. Qed.

(** The route cannot tell falsy values apart: two bodies whose properties
    are pairwise equal or both falsy ([undefined], [null], [false], [0],
    the empty string) get the same answer and cause the same queries with
    the same row.  An [execution_time_ms] of [0], for one, is stored as
    [null], just as a missing one. *)
Theorem falsy_fields_are_indistinguishable
    (PENDING : ToolExecutionLogs.Json) (db : ToolExecutionLogs.Database)
    (auth : Reply ToolExecutionLogs.Auth)
    (body body' : ToolExecutionLogs.Json) (f f' : ToolExecutionLogs.Fields) :
  ToolExecutionLogs.destructure body = Resolved f ->
  ToolExecutionLogs.destructure body' = Resolved f' ->
  same_or_falsy (ToolExecutionLogs.mcp_server_uuid f)
                (ToolExecutionLogs.mcp_server_uuid f') ->
  same_or_falsy (ToolExecutionLogs.tool_name f)
                (ToolExecutionLogs.tool_name f') ->
  same_or_falsy (ToolExecutionLogs.payload f) (ToolExecutionLogs.payload f') ->
  same_or_falsy (ToolExecutionLogs.result f) (ToolExecutionLogs.result f') ->
  same_or_falsy (ToolExecutionLogs.status f) (ToolExecutionLogs.status f') ->
  same_or_falsy (ToolExecutionLogs.error_message f)
                (ToolExecutionLogs.error_message f') ->
  same_or_falsy (ToolExecutionLogs.execution_time_ms f)
                (ToolExecutionLogs.execution_time_ms f') ->
  ToolExecutionLogs.POST PENDING db auth (Resolved body)
  = ToolExecutionLogs.POST PENDING db auth (Resolved body').
Proof.
  intros Hf Hf' Hserver Hname Hpayload Hresult Hstatus Herror Htime.
  unfold ToolExecutionLogs.POST.
  destruct auth as [[error|profile]|error]; try reflexivity.
  rewrite Hf, Hf'. cbv beta iota.
  rewrite <- (truthy_same_or_falsy _ _ Hname).
  destruct (ToolExecutionLogs.truthy (ToolExecutionLogs.tool_name f))
    eqn:Htruthy; [|reflexivity].
  simpl negb. cbv iota.
  assert (Hvalues : ToolExecutionLogs.log_values PENDING f
                    = ToolExecutionLogs.log_values PENDING f').
  { unfold ToolExecutionLogs.log_values.
    rewrite (or_else_same_or_falsy _ _ _ Hserver),
            (or_else_same_or_falsy _ _ _ Hpayload),
            (or_else_same_or_falsy _ _ _ Hresult),
            (or_else_same_or_falsy _ _ _ Hstatus),
            (or_else_same_or_falsy _ _ _ Herror),
            (or_else_same_or_falsy _ _ _ Htime).
    destruct Hname as [->|[Hfalsy _]]; [reflexivity | congruence]. }
  rewrite Hvalues.
  destruct Hserver as [->|[Hv Hv']]; [reflexivity|].
  destruct (ToolExecutionLogs.mcp_server_uuid f) as [uuid|],
           (ToolExecutionLogs.mcp_server_uuid f') as [uuid'|];
    rewrite ?Hv, ?Hv'; reflexivity.
Qed.

Lemma falsy_fields_are_indistinguishable_witness :
  let timed :=
    ToolExecutionLogs.JObj
      [ ("tool_name", ToolExecutionLogs.JStr "search");
        ("execution_time_ms", ToolExecutionLogs.JNum 0);
        ("result", ToolExecutionLogs.JBool false) ] in
  let bare :=
    ToolExecutionLogs.JObj [ ("tool_name", ToolExecutionLogs.JStr "search") ] in
  let pending := ToolExecutionLogs.JStr "PENDING" in
  let auth := Resolved (ToolExecutionLogs.Granted "profile-1") in
  ToolExecutionLogs.POST pending working_database auth (Resolved timed)
  = ToolExecutionLogs.POST pending working_database auth (Resolved bare).
Proof.
  intros timed bare pending auth.
  eapply (falsy_fields_are_indistinguishable pending working_database auth
            timed bare);
    first [ reflexivity | left; reflexivity | right; split; reflexivity ].
Defined.

(** ** [getFirstApiKey] *)

(** [getFirstApiKey] looks up at most 22 times and inserts at most 11 times;
    it inserts only after a lookup that succeeded and found no key, and the
    row it inserts is the project's, with a key that starts with [sk_mt_].
    A key found by the first lookup is returned without any insert, and an
    empty project id is answered without touching the database. *)
Theorem getFirstApiKey_database_use
    (db : ApiKeys.Database) (nanoid projectUuid : string) :
  let fetched := ApiKeys.getFirstApiKey db nanoid projectUuid in
  let first_lookup :=
    retryDbQuery (ApiKeys.find_first db projectUuid) no_options in
  (ApiKeys.lookups fetched ≤ 22)%nat
  /\ (ApiKeys.inserts fetched ≤ 11)%nat
  /\ ((0 < ApiKeys.inserts fetched)%nat ->
      first_lookup.1 = Resolved None
      /\ ApiKeys.inserts fetched
         = (retryDbQuery
              (ApiKeys.insert_key db
                 {| ApiKeys.project_uuid := projectUuid;
                    ApiKeys.api_key := "sk_mt_" ++ nanoid |})
              no_options).2)
  /\ (forall apiKey,
        projectUuid <> "" ->
        first_lookup.1 = Resolved (Some apiKey) ->
        ApiKeys.returned fetched = Resolved (Some apiKey)
        /\ ApiKeys.inserts fetched = 0%nat)
  /\ (projectUuid = "" ->
      fetched = {| ApiKeys.returned := Resolved None;
                   ApiKeys.lookups := 0; ApiKeys.inserts := 0 |}).
Proof.
  intros fetched first_lookup. subst fetched first_lookup.
  unfold ApiKeys.getFirstApiKey.
  destruct (String.eqb_spec projectUuid "") as [->|Hproject].
  { cbn. split; [lia|]. split; [lia|]. split; [lia|].
    split; [intros k Hne; contradiction | reflexivity]. }
  pose proof (retryDbQuery_default_bound (ApiKeys.find_first db projectUuid))
    as Hfirst.
  destruct (retryDbQuery (ApiKeys.find_first db projectUuid) no_options)
    as [[[found|]|error] n]; cbn in Hfirst |- *.
  - split; [lia|]. split; [lia|]. split; [lia|].
    split; [intros k _ [= <-]; auto | intros ->; contradiction].
  - pose proof (retryDbQuery_default_bound
                  (ApiKeys.insert_key db
                     {| ApiKeys.project_uuid := projectUuid;
                        ApiKeys.api_key := "sk_mt_" ++ nanoid |}))
      as Hinsert.
    destruct (retryDbQuery (ApiKeys.insert_key db _) no_options)
      as [[[]|error] i]; cbn in Hinsert |- *.
    + pose proof (retryDbQuery_default_bound
                    (ApiKeys.find_first_again db projectUuid)) as Hagain.
      destruct (retryDbQuery (ApiKeys.find_first_again db projectUuid)
                  no_options) as [again m]; cbn in Hagain |- *.
      split; [lia|]. split; [lia|]. split; [auto|].
      split; [intros k _ Hk; discriminate Hk | intros ->; contradiction].
    + split; [lia|]. split; [lia|]. split; [auto|].
      split; [intros k _ Hk; discriminate Hk | intros ->; contradiction].
  - split; [lia|]. split; [lia|]. split; [lia|].
    split; [intros k _ Hk; discriminate Hk | intros ->; contradiction].
Qed.

(** ** The session counts under interleaving *)

Lemma advance_preserved {A} (I : Store -> Prop) (env : Env)
    (p : Prog A) (w : World) :
  I (store w) ->
  preserved I p (store w) ->
  I (store (advance env p w).2) /\ task_preserved I (advance env p w).1.
Proof.
  revert w.
  induction p as [a|e|k IH|g k IH|k IH|X c k IH]; intros w Hw Hp; simpl in *.
  - auto.
  - auto.
  - apply IH; assumption.
  - destruct Hp as [Hg Hk]. apply (IH {| store := g (store w); trace := trace w |});
      assumption.
  - auto.
  - destruct (awaited c); simpl.
    + split; [exact Hw | exact Hp].
    + apply (IH _ (record c w)); [exact Hw | apply Hp].
Qed.

Lemma turn_preserved {A} (I : Store -> Prop) (env : Env) (i : nat)
    (pool : list (Task A)) (w : World) :
  I (store w) ->
  Forall (task_preserved I) pool ->
  I (store (turn env i (pool, w)).2)
  /\ Forall (task_preserved I) (turn env i (pool, w)).1.
Proof.
  intros Hw Hpool. unfold turn. simpl.
  destruct (pool !! i) as [t|] eqn:Hi; [|auto].
  assert (Ht : task_preserved I t).
  { eapply Forall_lookup_1; eassumption. }
  assert (Hres : I (store (resume env t w).2)
                 /\ task_preserved I (resume env t w).1).
  { destruct t as [p|X c k|r]; simpl in *.
    - apply advance_preserved; auto.
    - apply advance_preserved; auto.
    - auto. }
  destruct (resume env t w) as [t' w']. simpl in *.
  destruct Hres as [Hw' Ht']. split; [exact Hw'|].
  apply Forall_insert; assumption.
Qed.

Lemma run_schedule_preserved {A} (I : Store -> Prop) (env : Env)
    (sched : list nat) (pool : list (Task A)) (w : World) :
  I (store w) ->
  Forall (task_preserved I) pool ->
  I (store (run_schedule env sched (pool, w)).2).
Proof.
  unfold run_schedule. revert pool w.
  induction sched as [|i sched IH]; intros pool w Hw Hpool; simpl; [exact Hw|].
  destruct (turn_preserved I env i pool w Hw Hpool) as [Hw' Hpool'].
  destruct (turn env i (pool, w)) as [pool' w']. apply IH; assumption.
Qed.

Ltac preserved_counts :=
  repeat first
    [ progress cbn
    | progress intros
    | exact I
    | split
    | match goal with
      | |- counts_nonneg _ => progress counts_nonneg
      | |- context [of_reply ?r] => is_var r; destruct r
      | |- context [js_get ?m ?k] => destruct (js_get m k)
      | |- context [bool_decide ?P] => destruct (bool_decide P) eqn:?
      | |- context [metamcpServers ?st !! ?e] =>
          destruct (metamcpServers st !! e)
      end ].

Lemma begin_session_preserved (authReq : AuthenticatedRequest) (st : Store) :
  counts_nonneg st -> preserved counts_nonneg (begin_session authReq) st.
Proof. intros H. unfold begin_session. preserved_counts. Qed.

Lemma handle_delete_preserved (authReq : AuthenticatedRequest) (st : Store) :
  counts_nonneg st -> preserved counts_nonneg (handle_delete authReq) st.
Proof.
  intros H. unfold handle_delete.
  destruct (truthy (mcp_session_id (request authReq))); [|exact I].
  unfold cleanupSession, cleanupEndpointIfUnused. preserved_counts.
Qed.

Lemma handle_get_preserved (authReq : AuthenticatedRequest) (st : Store) :
  counts_nonneg st -> preserved counts_nonneg (handle_get authReq) st.
Proof. intros H. unfold handle_get. preserved_counts. Qed.

Lemma handle_post_preserved (authReq : AuthenticatedRequest) (st : Store) :
  counts_nonneg st -> preserved counts_nonneg (handle_post authReq) st.
Proof.
  intros H. unfold handle_post.
  destruct (negb (truthy (mcp_session_id (request authReq)))).
  - apply begin_session_preserved, H.
  - unfold continue_session. preserved_counts.
Qed.

Lemma route_preserved (handler : AuthenticatedRequest -> Prog Outcome)
    (req : Request) (st : Store) :
  (forall authReq st', counts_nonneg st' ->
                       preserved counts_nonneg (handler authReq) st') ->
  counts_nonneg st ->
  preserved counts_nonneg (route handler req) st.
Proof.
  intros Hhandler H. unfold route, lookupEndpoint. cbn.
  intros [[ep|]|error] st' H'; cbn; try exact I.
  unfold authenticateApiKey. cbn.
  destruct (enable_api_key_auth ep); cbn; [|apply Hhandler, H'].
  destruct (negb (truthy _)); cbn; [exact I|].
  intros [validation|error] st'' H''; cbn; [|exact I].
  destruct (valid validation); cbn; [apply Hhandler, H''|exact I].
Qed.

(** However the event loop interleaves any number of GET, POST and DELETE
    requests at their awaits, starting from empty records, and however the
    collaborators answer or fail, no endpoint ever has a negative session
    count. *)
Theorem session_counts_never_negative_interleaved
    (env : Env) (sched : list nat) (reqs : list (Method * Request)) :
  counts_nonneg
    (store (run_schedule env sched
              ((fun mr => Ready (handle mr)) <$> reqs, fresh_world)).2).
Proof.
  apply run_schedule_preserved.
  - intros e n Hn. simpl in Hn. rewrite lookup_empty in Hn. discriminate.
  - apply Forall_fmap, Forall_forall. intros [m req] _ st H.
    destruct m;
      [ apply (route_preserved handle_get)
      | apply (route_preserved handle_post)
      | apply (route_preserved handle_delete) ];
      auto using handle_get_preserved, handle_post_preserved,
        handle_delete_preserved.
Qed.
